(** * ggl_sheets_api: windowed table extraction and pagination

    A shallow embedding of [get_worksheet] (src/data/data_fetch.py) and of
    [return_transactions] (src/main.py), and the properties of the
    specification checked against them.

    Python integers are unbounded, so they are [Z]; a Python list is a
    [list]; [None] in a data cell is [None : option string].  Exceptions are
    explicit: the body of a [try] block is a computation in [Exc], and the
    [except] clause is the [match] that eliminates it.  Logging and timing
    do not change what is returned and are left out. *)

From Stdlib Require Import ZArith Lia.
From stdpp Require Import base list strings pretty.

Local Open Scope Z_scope.

(** ** Exceptions *)

Inductive exn : Type :=
  | IndexError
  | ValueError
  | ZeroDivisionError
  | SourceError (* gspread / credentials failure while fetching the grid *)
  | HTTPException (status : Z).

Inductive Exc (A : Type) : Type :=
  | Ok (a : A)
  | Raise (e : exn).
Arguments Ok {A} a.
Arguments Raise {A} e.

(** Sequencing stops at the first exception; with the instances below the
    body of a [try] block is written [x ← m; k]. *)
#[global] Instance exc_ret : MRet Exc := fun A a => Ok a.

#[global] Instance exc_bind : MBind Exc := fun A B k m =>
  match m with
  | Ok a => k a
  | Raise e => Raise e
  end.

(** ** Python list primitives *)

Section PyList.
Context {A : Type}.

Definition py_len (l : list A) : Z := Z.of_nat (length l).

(** [l[i]]: a negative index counts from the end, anything out of range
    raises IndexError. *)
Definition py_getitem (l : list A) (i : Z) : Exc A :=
  let j := if i <? 0 then i + py_len l else i in
  if j <? 0 then Raise IndexError
  else match l !! Z.to_nat j with
       | Some x => Ok x
       | None => Raise IndexError
       end.

(** A slice bound is brought into [0, len]: negative bounds count from the
    end, and nothing is ever out of range. *)
Definition py_bound (l : list A) (i : Z) : nat :=
  Z.to_nat (if i <? 0 then Z.max (i + py_len l) 0 else Z.min i (py_len l)).

(** [l[i:]] *)
Definition py_slice_from (l : list A) (i : Z) : list A :=
  drop (py_bound l i) l.

(** [l[:k]] *)
Definition py_slice_to (l : list A) (k : Z) : list A :=
  take (py_bound l k) l.

(** [l[i:k]] *)
Definition py_slice (l : list A) (i k : Z) : list A :=
  take (py_bound l k - py_bound l i)%nat (drop (py_bound l i) l).
End PyList.

(** [range(a, b)] *)
Definition py_range (a b : Z) : list Z := seqZ a (b - a).

(** [a // b] *)
Definition py_floordiv (a b : Z) : Exc Z :=
  if b =? 0 then Raise ZeroDivisionError else Ok (a / b).

(** ** Data model *)

Abbreviation RawRow := (list string).
Abbreviation RawGrid := (list (list string)).

(** A data cell of the frame: [None] is Python's None. *)
Abbreviation cell := (option string).

(** The part of a pandas DataFrame the program reads: the column labels and
    the rows in order. *)
Record DataFrame : Type := mkDataFrame {
  columns : list string;
  rows : list (list cell)
}.

(** [pd.DataFrame()] *)
Definition pd_DataFrame_empty : DataFrame :=
  {| columns := []; rows := [] |}.

(** [pd.DataFrame(data, columns=cols)] for a list of row lists.  pandas
    lays the rows out to the width of the longest one (shorter rows are
    filled with None) and raises ValueError ("n columns passed, passed data
    had m columns") when that width is not the number of labels; with no row
    at all the frame has the labels and no rows. *)
Definition pd_DataFrame (data : list (list cell)) (cols : list string)
  : Exc DataFrame :=
  match data with
  | [] => Ok {| columns := cols; rows := [] |}
  | _ :: _ =>
      let width := max_list (length <$> data) in
      if Nat.eqb width (length cols)
      then Ok {| columns := cols;
                 rows := (fun r => r ++ replicate (width - length r) None)
                           <$> data |}
      else Raise ValueError
  end.

(** [df.empty]: true when either axis has length 0. *)
Definition df_empty (df : DataFrame) : bool :=
  match columns df, rows df with
  | [], _ | _, [] => true
  | _, _ => false
  end.

(** [len(df)] *)
Definition df_len (df : DataFrame) : Z := py_len (rows df).

(** ** data_fetch.py: get_worksheet *)

(** Step 8 / step 11: [if limit_columns != 0 and limit_columns < len(xs):
    xs = xs[:limit_columns]]. *)
Definition limit_to (limit_columns : Z) (xs : list string) : list string :=
  if negb (limit_columns =? 0) && (limit_columns <? py_len xs)
  then py_slice_to xs limit_columns
  else xs.

(** Step 12: [while len(row_data) < len(headers): row_data.append("")].
    The loop runs once per missing cell. *)
Fixpoint append_blanks (missing : nat) (row_data : list string) : list string :=
  match missing with
  | O => row_data
  | S m => append_blanks m (row_data ++ [""%string])
  end.

Definition pad_while (row_data headers : list string) : list string :=
  append_blanks (length headers - length row_data) row_data.

(** Step 13: [None if value == "" else value]. *)
Definition none_if_empty (value : string) : cell :=
  if String.eqb value "" then None else Some value.

(** Steps 11 to 13 for one data row that reaches the starting column. *)
Definition process_row (col_idx limit_columns : Z) (headers : list string)
    (data_row : RawRow) : list cell :=
  let row_data := py_slice_from data_row col_idx in
  let row_data := limit_to limit_columns row_data in
  let row_data := pad_while row_data headers in
  none_if_empty <$> row_data.

(** The [for data_row_idx in range(start_data_row, end_data_row)] loop,
    steps 10 to 13; [data_rows] is the list being appended to. *)
Fixpoint for_data_rows (all_values : RawGrid) (col_idx limit_columns : Z)
    (headers : list string) (idxs : list Z) (data_rows : list (list cell))
  : Exc (list (list cell)) :=
  match idxs with
  | [] => Ok data_rows
  | data_row_idx :: idxs' =>
      data_row ← py_getitem all_values data_row_idx;
      if col_idx >=? py_len data_row
      then for_data_rows all_values col_idx limit_columns headers idxs' data_rows
      else for_data_rows all_values col_idx limit_columns headers idxs'
             (data_rows ++ [process_row col_idx limit_columns headers data_row])
  end.

(** Step 9: the bounds of the data-row range. *)
Definition start_data_row (row_idx : Z) : Z := row_idx + 1.

Definition end_data_row (all_values : RawGrid) (row_idx limit_rows : Z) : Z :=
  if limit_rows >? 0
  then Z.min (start_data_row row_idx + limit_rows) (py_len all_values)
  else py_len all_values.

(** Step 5: [if x < 1: x = 1]. *)
Definition at_least_1 (x : Z) : Z := if x <? 1 then 1 else x.

(** The body of the [try] block of [get_worksheet].  [fetched] stands for
    steps 1 to 3 (client, spreadsheet, [get_all_values]), which either
    deliver the grid or raise. *)
Definition get_worksheet_try (fetched : Exc RawGrid)
    (row_start column_start limit_columns limit_rows : Z) : Exc DataFrame :=
  all_values ← fetched;
  (* Step 4 *)
  if bool_decide (all_values = []) || (row_start >=? py_len all_values)
  then Ok pd_DataFrame_empty
  else
    (* Step 5 *)
    let row_start := at_least_1 row_start in
    let column_start := at_least_1 column_start in
    (* Step 6 *)
    let row_idx := row_start - 1 in
    let col_idx := column_start - 1 in
    (* Step 7 *)
    header_row ← py_getitem all_values row_idx;
    if col_idx >=? py_len header_row
    then Ok pd_DataFrame_empty
    else
      let headers := py_slice_from header_row col_idx in
      (* Step 8 *)
      let headers := limit_to limit_columns headers in
      (* Steps 9 to 13 *)
      data_rows ← for_data_rows all_values col_idx limit_columns headers
                    (py_range (start_data_row row_idx)
                              (end_data_row all_values row_idx limit_rows))
                    [];
      (* Step 14 *)
      pd_DataFrame data_rows headers.

(** [get_worksheet]: the [try] body with its [except Exception] clause. *)
Definition get_worksheet (fetched : Exc RawGrid)
    (row_start column_start limit_columns limit_rows : Z) : DataFrame :=
  match get_worksheet_try fetched row_start column_start
          limit_columns limit_rows with
  | Ok df => df
  | Raise _ => pd_DataFrame_empty
  end.

(** The extractor on a grid that was fetched. *)
Definition extract (grid : RawGrid)
    (row_start column_start limit_columns limit_rows : Z) : DataFrame :=
  get_worksheet (Ok grid) row_start column_start limit_columns limit_rows.

(** ** main.py: return_transactions *)

(** A row of [df.to_dict('records')]: a Python dict from column label to
    value, kept as its items in insertion order. *)
Abbreviation record := (list (string * option string)).

(** [d[k] = v]: an existing key keeps its place and takes the new value. *)
Fixpoint dict_set (k : string) (v : cell) (d : record) : record :=
  match d with
  | [] => [(k, v)]
  | (k', v') :: d' =>
      if String.eqb k k' then (k, v) :: d' else (k', v') :: dict_set k v d'
  end.

Definition to_record (cols : list string) (row : list cell) : record :=
  fold_left (fun d kv => dict_set kv.1 kv.2 d) (zip cols row) [].

(** [df.to_dict('records')] *)
Definition to_dict_records (df : DataFrame) : list record :=
  to_record (columns df) <$> rows df.

(** [df.iloc[start_idx:end_idx]]: a positional row slice. *)
Definition df_iloc (df : DataFrame) (start_idx end_idx : Z) : DataFrame :=
  {| columns := columns df; rows := py_slice (rows df) start_idx end_idx |}.

(** The pagination keys of a paged response. *)
Record Pagination : Type := mkPagination {
  page : Z;
  page_size : Z;
  total_pages : Z;
  has_next : bool;
  has_previous : bool
}.

(** The JSON object an endpoint returns; [paging] is present only in a paged
    response. *)
Record Response : Type := mkResponse {
  message : string;
  data : list record;
  total_rows : Z;
  paging : option Pagination
}.

(** The Pager: lines 132 to 165 of [return_transactions], what the endpoint
    does with a frame that is not empty.  [None] is an absent query
    parameter. *)
Definition paginate (df : DataFrame) (page page_size : option Z)
  : Exc Response :=
  let total_rows := df_len df in
  match page, page_size with
  | Some page, Some page_size =>
      total_pages ← py_floordiv (total_rows + page_size - 1) page_size;
      let skip_rows := (page - 1) * page_size in
      let start_idx := skip_rows in
      let end_idx := start_idx + page_size in
      let paginated_df := df_iloc df start_idx end_idx in
      let data := to_dict_records paginated_df in
      Ok {| message := "Transactions retrieved successfully";
            data := data;
            total_rows := total_rows;
            paging := Some {| page := page;
                              page_size := page_size;
                              total_pages := total_pages;
                              has_next := page <? total_pages;
                              has_previous := page >? 1 |} |}
  | _, _ =>
      let data := to_dict_records df in
      Ok {| message := "All transactions retrieved successfully";
            data := data;
            total_rows := total_rows;
            paging := None |}
  end.

(** The endpoint: the whole sheet from row 1, column 1, then the empty check
    and the Pager; any exception of the body becomes an HTTP 500. *)
Definition return_transactions (fetched : Exc RawGrid)
    (page page_size : option Z) : Exc Response :=
  let body :=
    let df := get_worksheet fetched 1 1 0 0 in
    if df_empty df
    then Ok {| message := "No transactions found";
               data := [];
               total_rows := 0;
               paging := None |}
    else paginate df page page_size in
  match body with
  | Ok response => Ok response
  | Raise _ => Raise (HTTPException 500)
  end.

(** ** main.py: get_worksheet_data *)

(** The JSON object of the worksheet endpoint; the [columns] key is present
    only when data was found. *)
Record WorksheetResponse : Type := mkWorksheetResponse {
  ws_message : string;
  ws_total_rows : Z;
  ws_columns : option (list string);
  ws_data : list record
}.

(** The endpoint: the frame of the requested window, then the empty check;
    any exception of the body becomes an HTTP 500. *)
Definition get_worksheet_data (fetched : Exc RawGrid)
    (row_start column_start limit_columns limit_rows : Z)
  : Exc WorksheetResponse :=
  let body :=
    let df := get_worksheet fetched row_start column_start
                limit_columns limit_rows in
    if df_empty df
    then Ok {| ws_message := "No data found or unable to retrieve data";
               ws_total_rows := 0;
               ws_columns := None;
               ws_data := [] |}
    else
      let data := to_dict_records df in
      Ok {| ws_message := "Data retrieved successfully";
            ws_total_rows := py_len data;
            ws_columns := Some (columns df);
            ws_data := data |} in
  match body with
  | Ok response => Ok response
  | Raise _ => Raise (HTTPException 500)
  end.

(** ** main.py: _verify_api_key *)

(** [API_KEY] is the value of [os.getenv("API_KEY")], [None] when the
    variable is not set; [credentials] is the bearer token of the request.
    [not api_key] holds for [None] and for the empty string. *)
Definition _verify_api_key (API_KEY : option string) (credentials : string)
  : Exc string :=
  match API_KEY with
  | None => Raise (HTTPException 500)
  | Some api_key =>
      if String.eqb api_key ""
      then Raise (HTTPException 500)
      else if negb (String.eqb credentials api_key)
           then Raise (HTTPException 401)
           else Ok credentials
  end.

(** ** data_fetch.py: credentials and client *)

Inductive cred_exn : Type :=
  | JSONDecodeError
  | IOError
  | FileNotFoundError
  | AuthError (* from_json_keyfile_dict or gspread.authorize failed *).

Section Credentials.
Context {Json Client : Type}.

(** [json.loads] / [json.load]: [None] is a JSONDecodeError. *)
Variable json_loads : string -> option Json.

(** [ServiceAccountCredentials.from_json_keyfile_dict] followed by
    [gspread.authorize]: [None] is any exception of the two. *)
Variable authorize : Json -> option Client.

(** [client.open(spreadsheet_name).worksheet(worksheet_name)
    .get_all_values()] *)
Variable get_all_values : Client -> string -> string -> Exc RawGrid.

(** The fall-back of [get_credentials_dict] to tokens/token.json.
    [token_file] is [None] when the file does not exist, [Some None] when it
    exists and cannot be read, [Some (Some text)] with its text otherwise. *)
Definition read_token_file (token_file : option (option string))
  : cred_exn + Json :=
  match token_file with
  | Some (Some text) =>
      match json_loads text with
      | Some credentials_dict => inr credentials_dict
      | None => inl JSONDecodeError
      end
  | Some None => inl IOError
  | None => inl FileNotFoundError
  end.

(** [GOOGLE_CREDENTIALS] is the value of [os.getenv('GOOGLE_CREDENTIALS')];
    [if google_credentials:] is false for [None] and for the empty string. *)
Definition get_credentials_dict (GOOGLE_CREDENTIALS : option string)
    (token_file : option (option string)) : cred_exn + Json :=
  match GOOGLE_CREDENTIALS with
  | Some google_credentials =>
      if String.eqb google_credentials ""
      then read_token_file token_file
      else match json_loads google_credentials with
           | Some credentials_dict => inr credentials_dict
           | None => inl JSONDecodeError
           end
  | None => read_token_file token_file
  end.

(** [get_gspread_client]: whatever fails is logged and raised again. *)
Definition get_gspread_client (GOOGLE_CREDENTIALS : option string)
    (token_file : option (option string)) : cred_exn + Client :=
  match get_credentials_dict GOOGLE_CREDENTIALS token_file with
  | inr credentials_dict =>
      match authorize credentials_dict with
      | Some client => inr client
      | None => inl AuthError
      end
  | inl e => inl e
  end.

(** Steps 1 to 3 of [get_worksheet], inside its [try]: the client, then the
    sheet's values.  A failure of the client is an exception of the body
    like any other. *)
Definition fetch_all_values (GOOGLE_CREDENTIALS : option string)
    (token_file : option (option string))
    (spreadsheet_name worksheet_name : string) : Exc RawGrid :=
  match get_gspread_client GOOGLE_CREDENTIALS token_file with
  | inr client => get_all_values client spreadsheet_name worksheet_name
  | inl _ => Raise SourceError
  end.
End Credentials.

(** ** Reading the results *)

(** [d.get(k)] on a record, with [None] for a key that is not there and
    [Some v] for the value [v] (which may be Python's None) of one that
    is. *)
Fixpoint dict_get (k : string) (d : record) : option cell :=
  match d with
  | [] => None
  | (k', v) :: d' => if String.eqb k k' then Some v else dict_get k d'
  end.

(** The items of page [p], as the Pager answers them. *)
Definition page_data (df : DataFrame) (p ps : Z) : list record :=
  match paginate df (Some p) (Some ps) with
  | Ok response => data response
  | Raise _ => []
  end.

(** The [has_next] flag of page [p], as the Pager answers it. *)
Definition page_has_next (df : DataFrame) (p ps : Z) : bool :=
  match paginate df (Some p) (Some ps) with
  | Ok response =>
      match paging response with
      | Some pg => has_next pg
      | None => false
      end
  | Raise _ => false
  end.

(** ** The specification's reading of the extractor

    These definitions follow the words of the specification (section 4.1),
    with lists cut by [take] and [drop]; the theorems compare them with the
    code above. *)

(** Zero-based header row and header column: the start clamped to 1, minus
    one. *)
Definition spec_r (row_start : Z) : nat := Z.to_nat (Z.max row_start 1 - 1).
Definition spec_c (column_start : Z) : nat :=
  Z.to_nat (Z.max column_start 1 - 1).

Definition spec_header_row (grid : RawGrid) (row_start : Z) : RawRow :=
  grid !!! spec_r row_start.

(** The structural failures of the contract: no rows; the clamped row start
    equals or exceeds the row count; the header row has fewer cells than the
    clamped column start. *)
Definition spec_structural_failure (grid : RawGrid)
    (row_start column_start : Z) : Prop :=
  grid = [] \/
  py_len grid <= Z.max row_start 1 \/
  py_len (spec_header_row grid row_start) < Z.max column_start 1.

(** Step 4: the header row from [c] on, cut to [limit_columns] entries when
    that is positive and smaller. *)
Definition spec_headers (grid : RawGrid)
    (row_start column_start limit_columns : Z) : list string :=
  let slice := drop (spec_c column_start) (spec_header_row grid row_start) in
  if bool_decide (0 < limit_columns < py_len slice)
  then take (Z.to_nat limit_columns) slice
  else slice.

(** Step 5: the data rows with zero-based index in [start, stop), where
    [start = r + 1] and [stop] is the row count, capped to
    [start + limit_rows] when [limit_rows > 0]. *)
Definition spec_window (grid : RawGrid) (row_start limit_rows : Z)
  : list RawRow :=
  let start := S (spec_r row_start) in
  let stop := if bool_decide (0 < limit_rows)
              then Nat.min (start + Z.to_nat limit_rows) (length grid)
              else length grid in
  take (stop - start) (drop start grid).

(** Step 6b *)
Definition spec_truncate (limit_columns : Z) (cells : list string)
  : list string :=
  if bool_decide (0 < limit_columns)
  then take (Z.to_nat limit_columns) cells
  else cells.

(** Step 6c *)
Definition spec_pad (width : nat) (cells : list string) : list string :=
  cells ++ replicate (width - length cells) ""%string.

(** Step 6d *)
Definition spec_null (value : string) : cell :=
  if decide (value = ""%string) then None else Some value.

(** What null normalization leaves of the source cell at index [i] of a
    row: null when the row has no such cell (the cell is padding) or the cell
    is the empty string, the text otherwise. *)
Definition spec_cell (data_row : RawRow) (i : nat) : cell :=
  match data_row !! i with
  | Some value => if decide (value = ""%string) then None else Some value
  | None => None
  end.

(** Steps 6b to 6d for one row. *)
Definition spec_row (c : nat) (limit_columns : Z) (width : nat)
    (data_row : RawRow) : list cell :=
  spec_null <$> spec_pad width (spec_truncate limit_columns (drop c data_row)).

(** Step 6: one output row for each row of the window that reaches the
    header column, in order. *)
Definition spec_rows (grid : RawGrid)
    (row_start column_start limit_columns limit_rows : Z) : list (list cell) :=
  let c := spec_c column_start in
  let width :=
    length (spec_headers grid row_start column_start limit_columns) in
  spec_row c limit_columns width
    <$> filter (fun data_row : RawRow => (c < length data_row)%nat)
          (spec_window grid row_start limit_rows).

(** ** Closed forms of the code's intermediate values

    [headers_of] is the value of [headers] after step 8 and [data_rows_of]
    the value of [data_rows] after the loop, for a grid whose header row is
    [header_row]; the lemmas below prove that the code computes them. *)

Definition headers_of (header_row : RawRow) (column_start limit_columns : Z)
  : list string :=
  limit_to limit_columns (py_slice_from header_row (at_least_1 column_start - 1)).

Definition data_rows_of (grid : RawGrid) (header_row : RawRow)
    (row_start column_start limit_columns limit_rows : Z) : list (list cell) :=
  let col_idx := at_least_1 column_start - 1 in
  process_row col_idx limit_columns
    (headers_of header_row column_start limit_columns)
    <$> filter (fun data_row : RawRow => col_idx < py_len data_row)
          (spec_window grid row_start limit_rows).

(** ** Sample grids and frames *)

Definition grid_header_only : RawGrid := [["h1"; "h2"]]%string.

Definition grid_scenario_A : RawGrid :=
  [["id"; "name"]; ["1"; "Alice"]; ["2"; ""]]%string.

(** A data row with more cells than the header row. *)
Definition grid_long_row : RawGrid := [["h"]; ["a"; "b"]]%string.

(** Ragged rows and a blank header cell. *)
Definition grid_ragged : RawGrid :=
  [["a"; ""; "c"]; ["x"]; ["y"; "z"]; []; ["p"; "q"; "r"]]%string.

Definition frame_25 : DataFrame :=
  {| columns := ["n"%string];
     rows := (fun k => [Some (pretty k)]) <$> seq 0 25 |}.

(** * Properties *)

(** ** Python list primitives *)

Section PyListFacts.
Context {A : Type}.
Implicit Types l : list A.

Lemma py_len_nonneg l : 0 <= py_len l.
Proof. unfold py_len. lia. Qed.

Lemma py_getitem_nonneg l i :
  0 <= i ->
  py_getitem l i = match l !! Z.to_nat i with
                   | Some x => Ok x
                   | None => Raise IndexError
                   end.
Proof.
  intros Hi. unfold py_getitem.
  destruct (Z.ltb_spec i 0) as [?|_]; [lia|].
  destruct (Z.ltb_spec i 0) as [?|_]; [lia|]. reflexivity.
Qed.

Lemma py_bound_nonneg l i :
  0 <= i -> py_bound l i = Nat.min (Z.to_nat i) (length l).
Proof.
  intros Hi. unfold py_bound, py_len.
  destruct (Z.ltb_spec i 0); lia.
Qed.

Lemma py_slice_from_nonneg l i :
  0 <= i -> py_slice_from l i = drop (Z.to_nat i) l.
Proof.
  intros Hi. unfold py_slice_from. rewrite py_bound_nonneg by done.
  destruct (Nat.le_gt_cases (Z.to_nat i) (length l)).
  - by rewrite Nat.min_l.
  - rewrite Nat.min_r by lia. by rewrite !drop_ge by lia.
Qed.

Lemma py_slice_to_nonneg l k :
  0 <= k -> py_slice_to l k = take (Z.to_nat k) l.
Proof.
  intros Hk. unfold py_slice_to. rewrite py_bound_nonneg by done.
  destruct (Nat.le_gt_cases (Z.to_nat k) (length l)).
  - by rewrite Nat.min_l.
  - rewrite Nat.min_r by lia. by rewrite !take_ge by lia.
Qed.

Lemma py_slice_nonneg l i k :
  0 <= i -> 0 <= k ->
  py_slice l i k = take (Z.to_nat k - Z.to_nat i) (drop (Z.to_nat i) l).
Proof.
  intros Hi Hk. unfold py_slice. rewrite !py_bound_nonneg by done.
  destruct (Nat.le_gt_cases (length l) (Z.to_nat i)).
  - rewrite (Nat.min_r (Z.to_nat i)) by lia.
    rewrite !drop_ge by lia. by rewrite !take_nil.
  - rewrite (Nat.min_l (Z.to_nat i)) by lia.
    destruct (Nat.le_gt_cases (Z.to_nat k) (length l)).
    + by rewrite Nat.min_l.
    + rewrite Nat.min_r by lia.
      rewrite !take_ge; [done | rewrite length_drop; lia ..].
Qed.
End PyListFacts.

(** ** One data row *)

Lemma append_blanks_replicate (missing : nat) (row_data : list string) :
  append_blanks missing row_data = row_data ++ replicate missing ""%string.
Proof.
  revert row_data. induction missing as [|m IH]; intros row_data; simpl.
  - by rewrite app_nil_r.
  - rewrite IH. by rewrite <- app_assoc.
Qed.

Lemma pad_while_spec (row_data headers : list string) :
  pad_while row_data headers = spec_pad (length headers) row_data.
Proof. apply append_blanks_replicate. Qed.

Lemma pad_while_length (row_data headers : list string) :
  length (pad_while row_data headers)
  = Nat.max (length row_data) (length headers).
Proof.
  rewrite pad_while_spec. unfold spec_pad.
  rewrite length_app, length_replicate. lia.
Qed.

Lemma none_if_empty_spec (value : string) :
  none_if_empty value = spec_null value.
Proof.
  unfold none_if_empty, spec_null.
  destruct (String.eqb_spec value ""); by case_decide.
Qed.

Lemma none_if_empty_not_blank (value : string) :
  none_if_empty value <> Some ""%string.
Proof.
  unfold none_if_empty.
  destruct (String.eqb_spec value ""); congruence.
Qed.

Lemma limit_to_spec (limit_columns : Z) (xs : list string) :
  0 <= limit_columns -> limit_to limit_columns xs = spec_truncate limit_columns xs.
Proof.
  intros Hlc. unfold limit_to, spec_truncate, py_len.
  destruct (Z.eqb_spec limit_columns 0) as [->|Hne]; cbn [negb andb].
  - done.
  - rewrite bool_decide_eq_true_2 by lia.
    destruct (Z.ltb_spec limit_columns (Z.of_nat (length xs))).
    + by apply py_slice_to_nonneg.
    + by rewrite take_ge by lia.
Qed.

Lemma process_row_spec (col_idx limit_columns : Z) (headers : list string)
    (data_row : RawRow) :
  0 <= col_idx -> 0 <= limit_columns ->
  process_row col_idx limit_columns headers data_row
  = spec_row (Z.to_nat col_idx) limit_columns (length headers) data_row.
Proof.
  intros Hc Hlc. unfold process_row, spec_row.
  rewrite py_slice_from_nonneg, limit_to_spec, pad_while_spec by done.
  apply list_fmap_ext. intros _ v _. apply none_if_empty_spec.
Qed.

Lemma process_row_length (col_idx limit_columns : Z) (headers : list string)
    (data_row : RawRow) :
  length (process_row col_idx limit_columns headers data_row)
  = Nat.max (length (limit_to limit_columns (py_slice_from data_row col_idx)))
            (length headers).
Proof. unfold process_row. by rewrite length_fmap, pad_while_length. Qed.

(** ** The row loop *)

(** Over a range that lies inside the grid the loop raises nothing, and
    appends the processed rows of exactly the rows it ranges over, leaving
    out those that do not reach the starting column. *)
Lemma for_data_rows_seqZ (all_values : RawGrid) (col_idx limit_columns : Z)
    (headers : list string) (n : nat) :
  forall (a : Z) (data_rows : list (list cell)),
    0 <= a -> a + Z.of_nat n <= py_len all_values ->
    for_data_rows all_values col_idx limit_columns headers
      (seqZ a (Z.of_nat n)) data_rows
    = Ok (data_rows ++
          (process_row col_idx limit_columns headers
             <$> filter (fun data_row : RawRow => col_idx < py_len data_row)
                   (take n (drop (Z.to_nat a) all_values)))).
Proof.
  induction n as [|n IH]; intros a data_rows Ha Hle.
  - cbn. by rewrite app_nil_r.
  - rewrite seqZ_cons by lia.
    replace (Z.pred (Z.of_nat (S n))) with (Z.of_nat n) by lia.
    cbn [for_data_rows]. rewrite py_getitem_nonneg by done.
    unfold py_len in Hle.
    destruct (lookup_lt_is_Some_2 all_values (Z.to_nat a)) as [row Hrow];
      [lia|].
    rewrite Hrow. cbn [mbind exc_bind].
    rewrite (drop_S _ _ _ Hrow). cbn [take].
    rewrite filter_cons.
    replace (S (Z.to_nat a)) with (Z.to_nat (Z.succ a)) by lia.
    rewrite Z.geb_leb.
    destruct (Z.leb_spec (py_len row) col_idx).
    + rewrite decide_False by lia.
      rewrite IH by (unfold py_len; lia). done.
    + rewrite decide_True by lia.
      rewrite IH by (unfold py_len; lia).
      rewrite fmap_cons. by rewrite <- app_assoc.
Qed.

(** ** The body of get_worksheet *)

Lemma at_least_1_max (x : Z) : at_least_1 x = Z.max x 1.
Proof. unfold at_least_1. destruct (Z.ltb_spec x 1); lia. Qed.

Lemma spec_r_at_least_1 (row_start : Z) :
  Z.to_nat (at_least_1 row_start - 1) = spec_r row_start.
Proof. unfold spec_r. by rewrite at_least_1_max. Qed.

Lemma py_range_seqZ (a b : Z) :
  py_range a b = seqZ a (Z.of_nat (Z.to_nat (b - a))).
Proof. unfold py_range, seqZ. by rewrite Nat2Z.id. Qed.

(** The rows the loop ranges over are the specification's window. *)
Lemma scanned_rows_window (grid : RawGrid) (row_start limit_rows : Z) :
  let row_idx := at_least_1 row_start - 1 in
  take (Z.to_nat (end_data_row grid row_idx limit_rows - start_data_row row_idx))
       (drop (Z.to_nat (start_data_row row_idx)) grid)
  = spec_window grid row_start limit_rows.
Proof.
  intros row_idx. unfold spec_window, end_data_row, start_data_row, py_len.
  rewrite <- spec_r_at_least_1. fold row_idx.
  assert (0 <= row_idx) by (unfold row_idx; rewrite at_least_1_max; lia).
  replace (Z.to_nat (row_idx + 1)) with (S (Z.to_nat row_idx)) by lia.
  f_equal. rewrite Z.gtb_ltb.
  destruct (Z.ltb_spec 0 limit_rows).
  - rewrite bool_decide_eq_true_2 by done. lia.
  - rewrite bool_decide_eq_false_2 by lia. lia.
Qed.

(** Past both bounds checks the body is the frame constructor applied to
    the closed forms: the loop and the header lookup raise nothing. *)
Lemma get_worksheet_try_checked (grid : RawGrid) (header_row : RawRow)
    (row_start column_start limit_columns limit_rows : Z) :
  row_start < py_len grid ->
  grid !! spec_r row_start = Some header_row ->
  at_least_1 column_start - 1 < py_len header_row ->
  get_worksheet_try (Ok grid) row_start column_start limit_columns limit_rows
  = pd_DataFrame
      (data_rows_of grid header_row row_start column_start
         limit_columns limit_rows)
      (headers_of header_row column_start limit_columns).
Proof.
  intros Hrow Hhdr Hcol. unfold get_worksheet_try. cbv zeta. cbn [mbind exc_bind].
  assert (grid <> []) as Hne by (by intros ->).
  rewrite bool_decide_eq_false_2 by done.
  rewrite Z.geb_leb. destruct (Z.leb_spec (py_len grid) row_start); [lia|].
  cbn [orb].
  assert (0 <= at_least_1 row_start - 1) as Hr
    by (rewrite at_least_1_max; lia).
  rewrite py_getitem_nonneg by done.
  rewrite spec_r_at_least_1, Hhdr. cbn [mbind exc_bind].
  rewrite Z.geb_leb.
  destruct (Z.leb_spec (py_len header_row) (at_least_1 column_start - 1));
    [lia|].
  rewrite py_range_seqZ.
  apply lookup_lt_Some in Hhdr. rewrite <- spec_r_at_least_1 in Hhdr.
  rewrite for_data_rows_seqZ.
  - cbn [mbind exc_bind app]. rewrite scanned_rows_window. reflexivity.
  - unfold start_data_row. lia.
  - unfold end_data_row, start_data_row, py_len.
    destruct (limit_rows >? 0); lia.
Qed.

(** Every way the body can end, for a grid that was fetched. *)
Lemma get_worksheet_try_cases (grid : RawGrid)
    (row_start column_start limit_columns limit_rows : Z) :
  get_worksheet_try (Ok grid) row_start column_start limit_columns limit_rows
  = Ok pd_DataFrame_empty
  \/ exists header_row : RawRow,
       row_start < py_len grid /\
       grid !! spec_r row_start = Some header_row /\
       at_least_1 column_start - 1 < py_len header_row /\
       get_worksheet_try (Ok grid) row_start column_start
         limit_columns limit_rows
       = pd_DataFrame
           (data_rows_of grid header_row row_start column_start
              limit_columns limit_rows)
           (headers_of header_row column_start limit_columns).
Proof.
  destruct (decide (grid = [])) as [->|Hne]; [by left|].
  destruct (Z.le_gt_cases (py_len grid) row_start) as [Hge|Hlt].
  { left. unfold get_worksheet_try. cbv zeta. cbn [mbind exc_bind].
    rewrite Z.geb_leb. destruct (Z.leb_spec (py_len grid) row_start); [|lia].
    by rewrite orb_true_r. }
  destruct (lookup_lt_is_Some_2 grid (spec_r row_start)) as [header_row Hhdr].
  { unfold spec_r, py_len in *. destruct grid; [done|]. simpl in *. lia. }
  destruct (Z.le_gt_cases (py_len header_row) (at_least_1 column_start - 1))
    as [Hshort|Hcol].
  - left. unfold get_worksheet_try. cbv zeta. cbn [mbind exc_bind].
    rewrite bool_decide_eq_false_2 by done.
    rewrite Z.geb_leb. destruct (Z.leb_spec (py_len grid) row_start); [lia|].
    cbn [orb]. rewrite py_getitem_nonneg by (rewrite at_least_1_max; lia).
    rewrite spec_r_at_least_1, Hhdr. cbn [mbind exc_bind].
    rewrite Z.geb_leb.
    by destruct (Z.leb_spec (py_len header_row) (at_least_1 column_start - 1));
      [|lia].
  - right. exists header_row. repeat split; [lia | done | lia |].
    apply get_worksheet_try_checked; [lia | done | lia].
Qed.

(** ** The frame constructor *)

Lemma pd_DataFrame_columns (data : list (list cell)) (cols : list string)
    (df : DataFrame) :
  pd_DataFrame data cols = Ok df -> columns df = cols.
Proof.
  unfold pd_DataFrame. cbv zeta. destruct data as [|row data]; [by intros [= <-]|].
  case_match; [by intros [= <-] | done].
Qed.

(** A frame that was built is rectangular. *)
Lemma pd_DataFrame_width (data : list (list cell)) (cols : list string)
    (df : DataFrame) :
  pd_DataFrame data cols = Ok df ->
  Forall (fun row => length row = length cols) (rows df).
Proof.
  unfold pd_DataFrame. cbv zeta. destruct data as [|row0 data]; [by intros [= <-]|].
  assert (forall row : list cell, row ∈ row0 :: data ->
            (length row <= max_list (length <$> row0 :: data))%nat) as Hmax.
  { intros row Hin. apply max_list_elem_of_le, list_elem_of_fmap.
    by exists row. }
  remember (max_list (length <$> row0 :: data)) as width eqn:Hwidth.
  clear Hwidth.
  destruct (Nat.eqb_spec width (length cols)) as [->|]; [|done].
  intros Hdf. injection Hdf as <-.
  change (Forall (fun row : list cell => length row = length cols)
            ((fun r : list cell => r ++ replicate (length cols - length r) None)
               <$> row0 :: data)).
  apply Forall_fmap, Forall_forall. intros row Hin. cbn.
  specialize (Hmax row Hin). rewrite length_app, length_replicate. lia.
Qed.

(** Rows that already have the width of the labels go in unchanged. *)
Lemma pd_DataFrame_exact (data : list (list cell)) (cols : list string) :
  Forall (fun row => length row = length cols) data ->
  pd_DataFrame data cols = Ok {| columns := cols; rows := data |}.
Proof.
  intros Hall. unfold pd_DataFrame. cbv zeta. destruct data as [|row0 data]; [done|].
  assert (max_list (length <$> row0 :: data) = length cols) as Hw.
  { apply Forall_cons in Hall as [H0 Hall]. cbn. rewrite H0.
    clear H0. induction Hall as [|row rest Hrow _ IH]; cbn; [lia|].
    cbn in IH. lia. }
  rewrite Hw, Nat.eqb_refl. do 2 f_equal.
  rewrite <- (list_fmap_id (row0 :: data)) at 2.
  apply Forall_fmap_ext_1. eapply Forall_impl; [exact Hall|].
  cbn. intros row ->. by rewrite Nat.sub_diag, app_nil_r.
Qed.

(** One row wider than the labels makes the constructor raise. *)
Lemma pd_DataFrame_too_wide (data : list (list cell)) (cols : list string)
    (row : list cell) :
  row ∈ data -> (length cols < length row)%nat ->
  pd_DataFrame data cols = Raise ValueError.
Proof.
  intros Hin Hlong. unfold pd_DataFrame. cbv zeta.
  destruct data as [|row0 data]; [by apply elem_of_nil in Hin|].
  assert (length row <= max_list (length <$> row0 :: data))%nat.
  { apply max_list_elem_of_le, list_elem_of_fmap. by exists row. }
  destruct (Nat.eqb_spec (max_list (length <$> row0 :: data)) (length cols));
    [lia | done].
Qed.

(** No row of [data_rows_of] is narrower than the headers. *)
Lemma data_rows_of_wide (grid : RawGrid) (header_row : RawRow)
    (row_start column_start limit_columns limit_rows : Z) :
  Forall (fun row =>
            (length (headers_of header_row column_start limit_columns)
             <= length row)%nat)
    (data_rows_of grid header_row row_start column_start
       limit_columns limit_rows).
Proof.
  unfold data_rows_of. apply Forall_fmap, Forall_forall. intros row _. cbn.
  rewrite process_row_length. lia.
Qed.

(** So when the frame is built, its rows are the loop's rows as they are. *)
Lemma pd_DataFrame_data_rows_of (grid : RawGrid) (header_row : RawRow)
    (row_start column_start limit_columns limit_rows : Z) (df : DataFrame) :
  pd_DataFrame
    (data_rows_of grid header_row row_start column_start
       limit_columns limit_rows)
    (headers_of header_row column_start limit_columns) = Ok df ->
  df = {| columns := headers_of header_row column_start limit_columns;
          rows := data_rows_of grid header_row row_start column_start
                    limit_columns limit_rows |}.
Proof.
  intros Hdf.
  destruct (decide (Forall (fun row : list cell =>
              length row
              = length (headers_of header_row column_start limit_columns))
            (data_rows_of grid header_row row_start column_start
               limit_columns limit_rows))) as [Hall|Hnot].
  - rewrite (pd_DataFrame_exact _ _ Hall) in Hdf. by injection Hdf as <-.
  - apply not_Forall_Exists in Hnot; [|intros row; apply _].
    apply Exists_exists in Hnot as (row & Hin & Hlen).
    pose proof (data_rows_of_wide grid header_row row_start column_start
                  limit_columns limit_rows) as Hwide.
    rewrite Forall_forall in Hwide. specialize (Hwide row Hin).
    unfold compose in Hlen. cbv beta in Hlen, Hwide.
    rewrite (pd_DataFrame_too_wide _ _ row Hin) in Hdf; [done | lia].
Qed.

(** What [get_worksheet] returns on a fetched grid: the empty frame, or the
    headers with the loop's rows. *)
Lemma get_worksheet_cases (grid : RawGrid)
    (row_start column_start limit_columns limit_rows : Z) :
  get_worksheet (Ok grid) row_start column_start limit_columns limit_rows
  = pd_DataFrame_empty
  \/ exists header_row : RawRow,
       row_start < py_len grid /\
       grid !! spec_r row_start = Some header_row /\
       at_least_1 column_start - 1 < py_len header_row /\
       Forall (fun row =>
                 length row
                 = length (headers_of header_row column_start limit_columns))
         (data_rows_of grid header_row row_start column_start
            limit_columns limit_rows) /\
       get_worksheet (Ok grid) row_start column_start limit_columns limit_rows
       = {| columns := headers_of header_row column_start limit_columns;
            rows := data_rows_of grid header_row row_start column_start
                      limit_columns limit_rows |}.
Proof.
  unfold get_worksheet.
  destruct (get_worksheet_try_cases grid row_start column_start
              limit_columns limit_rows)
    as [-> | (header_row & Hrow & Hhdr & Hcol & ->)]; [by left|].
  destruct (pd_DataFrame _ _) as [df|e] eqn:Hdf; [|by left].
  right. exists header_row.
  pose proof (pd_DataFrame_width _ _ _ Hdf) as Hwidth.
  apply pd_DataFrame_data_rows_of in Hdf as ->.
  repeat split; done.
Qed.

Lemma get_worksheet_fetch_failed (e : exn)
    (row_start column_start limit_columns limit_rows : Z) :
  get_worksheet (Raise e) row_start column_start limit_columns limit_rows
  = pd_DataFrame_empty.
Proof. reflexivity. Qed.

(** ** Bounds checks *)

(** Step 4 looks at [row_start] as it was passed. *)
Lemma extract_row_start_beyond (grid : RawGrid)
    (row_start column_start limit_columns limit_rows : Z) :
  py_len grid <= row_start ->
  extract grid row_start column_start limit_columns limit_rows
  = pd_DataFrame_empty.
Proof.
  intros Hge. unfold extract, get_worksheet, get_worksheet_try.
  cbv zeta. cbn [mbind exc_bind]. rewrite Z.geb_leb.
  destruct (Z.leb_spec (py_len grid) row_start); [|lia].
  by rewrite orb_true_r.
Qed.

Lemma extract_no_rows (row_start column_start limit_columns limit_rows : Z) :
  extract [] row_start column_start limit_columns limit_rows
  = pd_DataFrame_empty.
Proof. reflexivity. Qed.

(** Step 7, on a grid that passed step 4. *)
Lemma extract_column_start_beyond (grid : RawGrid) (header_row : RawRow)
    (row_start column_start limit_columns limit_rows : Z) :
  grid !! spec_r row_start = Some header_row ->
  py_len header_row < Z.max column_start 1 ->
  extract grid row_start column_start limit_columns limit_rows
  = pd_DataFrame_empty.
Proof.
  intros Hhdr Hshort. unfold extract.
  destruct (get_worksheet_cases grid row_start column_start
              limit_columns limit_rows)
    as [-> | (header_row' & _ & Hhdr' & Hcol & _ & _)]; [done|].
  rewrite Hhdr in Hhdr'. injection Hhdr' as <-.
  rewrite at_least_1_max in Hcol. lia.
Qed.

(** A one-row grid read with [row_start] below 1 passes step 4, and the row
    becomes the header of a frame without rows. *)
Lemma extract_one_row_below_1 (header_row : RawRow)
    (row_start column_start limit_columns limit_rows : Z) :
  row_start < 1 ->
  at_least_1 column_start - 1 < py_len header_row ->
  extract [header_row] row_start column_start limit_columns limit_rows
  = {| columns := headers_of header_row column_start limit_columns;
       rows := [] |}.
Proof.
  intros Hrs Hcol. unfold extract, get_worksheet.
  rewrite (get_worksheet_try_checked _ header_row).
  - unfold data_rows_of, spec_window. cbn [length drop].
    by rewrite drop_nil, take_nil.
  - unfold py_len. cbn. lia.
  - unfold spec_r. by replace (Z.to_nat (Z.max row_start 1 - 1)) with O by lia.
  - done.
Qed.

Lemma headers_of_spec (grid : RawGrid) (header_row : RawRow)
    (row_start column_start limit_columns : Z) :
  grid !! spec_r row_start = Some header_row ->
  0 <= limit_columns ->
  headers_of header_row column_start limit_columns
  = spec_headers grid row_start column_start limit_columns.
Proof.
  intros Hhdr Hlc. unfold headers_of, spec_headers, spec_header_row.
  rewrite (list_lookup_total_correct _ _ _ Hhdr).
  rewrite py_slice_from_nonneg by (rewrite at_least_1_max; lia).
  rewrite limit_to_spec by done.
  rewrite at_least_1_max. fold (spec_c column_start).
  unfold spec_truncate, py_len. cbv zeta.
  set (slice := drop (spec_c column_start) header_row).
  destruct (decide (0 < limit_columns)).
  - rewrite bool_decide_eq_true_2 by done. case_bool_decide; [done|].
    by rewrite take_ge by lia.
  - rewrite !bool_decide_eq_false_2 by lia. done.
Qed.

(** ** Claims about the extractor *)

(** Scenario C of the specification: a column start past the header row. *)
Example column_start_past_header :
  extract grid_scenario_A 1 5 0 0 = pd_DataFrame_empty.
Proof. reflexivity. Qed.

(** C1, as stated: on the one-row grid [["h1","h2"]] with the default window
    the result would be the frame with columns ["h1","h2"] and no rows.  The
    code does not return that frame. *)
Lemma header_only_default_is_not_header_frame :
  extract grid_header_only 1 1 0 0
  <> {| columns := ["h1"; "h2"]%string; rows := [] |}.
Proof. vm_compute. discriminate. Qed.

(** C1, amended: on the one-row grid [["h1","h2"]] with the default window
    (row_start = 1, column_start = 1, no limits) [extract] returns the empty
    frame, zero columns and zero rows: row_start = 1 is not below the row
    count 1, which step 4 treats as nothing to read. *)
Theorem header_only_default_is_empty :
  extract grid_header_only 1 1 0 0 = pd_DataFrame_empty.
Proof. reflexivity. Qed.

(** C2, at the failing input: on the one-row grid [["h1","h2"]] with
    row_start = 0 the clamped row start, 1, equals the row count, yet the
    result is not the empty frame: step 4 compared the unclamped 0 with the
    row count, so the row is taken as the header row.  With row_start = 1,
    the value 0 is clamped to, the same grid gives the empty frame. *)
Theorem row_start_checked_before_clamp :
  py_len grid_header_only <= Z.max 0 1
  /\ extract grid_header_only 0 1 0 0
     = {| columns := ["h1"; "h2"]%string; rows := [] |}
  /\ extract grid_header_only 0 1 0 0 <> pd_DataFrame_empty
  /\ extract grid_header_only 1 1 0 0 = pd_DataFrame_empty.
Proof. repeat split; [by vm_compute | vm_compute; discriminate]. Qed.

(** C4: in the frame [get_worksheet] returns, every row has exactly as many
    cells as there are column headers, whatever the grid and the window. *)
Theorem every_row_has_header_count (fetched : Exc RawGrid)
    (row_start column_start limit_columns limit_rows : Z) :
  let df := get_worksheet fetched row_start column_start
              limit_columns limit_rows in
  Forall (fun row => length row = length (columns df)) (rows df).
Proof.
  destruct fetched as [grid|e]; [|by constructor].
  cbv zeta. unfold get_worksheet.
  destruct (get_worksheet_try_cases grid row_start column_start
              limit_columns limit_rows)
    as [-> | (header_row & _ & _ & _ & ->)]; [by constructor|].
  destruct (pd_DataFrame _ _) as [df|e] eqn:Hdf; [|by constructor].
  rewrite (pd_DataFrame_columns _ _ _ Hdf).
  by apply (pd_DataFrame_width _ _ _ Hdf).
Qed.

(** ** Cells of an output row *)

Lemma headers_of_length_le (header_row : RawRow)
    (column_start limit_columns : Z) :
  0 < limit_columns ->
  (length (headers_of header_row column_start limit_columns)
   <= Z.to_nat limit_columns)%nat.
Proof.
  intros Hlc. unfold headers_of. rewrite limit_to_spec by lia.
  unfold spec_truncate. rewrite bool_decide_eq_true_2 by done.
  rewrite length_take. lia.
Qed.

(** Cell [j] of an output row comes from cell [c + j] of its source row. *)
Lemma spec_row_lookup (c : nat) (limit_columns : Z) (width : nat)
    (data_row : RawRow) (j : nat) :
  (0 < limit_columns -> (width <= Z.to_nat limit_columns)%nat) ->
  (j < width)%nat ->
  spec_row c limit_columns width data_row !! j
  = Some (spec_cell data_row (c + j)).
Proof.
  intros Hw Hj. unfold spec_row, spec_pad, spec_cell.
  rewrite list_lookup_fmap.
  set (cut := spec_truncate limit_columns (drop c data_row)).
  assert (forall i : nat, (i < width)%nat ->
            cut !! i = data_row !! (c + i)%nat) as Hcut.
  { intros i Hi. unfold cut, spec_truncate. case_bool_decide.
    - rewrite lookup_take_lt by (specialize (Hw ltac:(done)); lia).
      apply lookup_drop.
    - apply lookup_drop. }
  destruct (decide (j < length cut)%nat) as [Hin|Hout].
  - rewrite lookup_app_l by done. rewrite Hcut by done.
    destruct (lookup_lt_is_Some_2 cut j Hin) as [v Hv].
    rewrite Hcut in Hv by done. rewrite Hv. done.
  - rewrite lookup_app_r by lia.
    rewrite lookup_replicate_2 by lia.
    assert (cut !! j = None) as Hnone by (apply lookup_ge_None; lia).
    rewrite Hcut in Hnone by done. rewrite Hnone. done.
Qed.

(** C5: no cell of a data row of the frame [extract] returns is the empty
    string.  Every output row comes from a data row of the grid, and (for a
    column limit that is not negative) its cell [j] is what null
    normalization leaves of source cell [c + j]: null where the source cell
    is the empty string and null where the row had no such cell and the cell
    is padding. *)
Theorem no_empty_string_cells (grid : RawGrid)
    (row_start column_start limit_columns limit_rows : Z) :
  let df := extract grid row_start column_start limit_columns limit_rows in
  Forall (Forall (fun value : cell => value <> Some ""%string)) (rows df)
  /\ (0 <= limit_columns ->
      Forall (fun out_row : list cell =>
                exists data_row : RawRow,
                  data_row ∈ grid /\
                  forall j : nat, (j < length out_row)%nat ->
                    out_row !! j
                    = Some (spec_cell data_row (spec_c column_start + j)))
        (rows df)).
Proof.
  cbv zeta. unfold extract.
  destruct (get_worksheet_cases grid row_start column_start
              limit_columns limit_rows)
    as [-> | (header_row & _ & _ & Hcol & Hwidth & ->)].
  { split; [|intros _]; by constructor. }
  cbn [rows]. split.
  - unfold data_rows_of. apply Forall_fmap, Forall_forall. intros data_row _.
    cbn. unfold process_row. apply Forall_fmap, Forall_forall. intros v _.
    apply none_if_empty_not_blank.
  - intros Hlc. pose proof Hwidth as Hw. unfold data_rows_of in Hw |- *.
    rewrite Forall_fmap in Hw. apply Forall_fmap.
    apply Forall_forall. intros data_row Hin. cbn.
    rewrite Forall_forall in Hw. specialize (Hw data_row Hin). cbn in Hw.
    exists data_row. split.
    + apply list_elem_of_filter in Hin as [_ Hin].
      unfold spec_window in Hin.
      by apply subseteq_take, subseteq_drop in Hin.
    + intros j Hj. rewrite Hw in Hj.
      rewrite process_row_spec by (rewrite ?at_least_1_max; lia).
      rewrite at_least_1_max. fold (spec_c column_start).
      apply spec_row_lookup; [|done].
      intros Hpos. by apply headers_of_length_le.
Qed.

(** C5 at a ragged grid with a blank cell and a short row: columns 2 and 3,
    every data row. *)
Lemma no_empty_string_cells_witness :
  let df := extract grid_ragged 1 2 0 0 in
  rows df = [[Some "z"; None]; [Some "q"; Some "r"]]%string
  /\ Forall (fun out_row : list cell =>
               exists data_row : RawRow,
                 data_row ∈ grid_ragged /\
                 forall j : nat, (j < length out_row)%nat ->
                   out_row !! j = Some (spec_cell data_row (spec_c 2 + j)))
       (rows df).
Proof.
  split; [reflexivity|].
  apply (no_empty_string_cells grid_ragged 1 2 0 0). lia.
Defined.

(** The error policy as far as it holds on every input: [get_worksheet]
    never raises to its caller.  Whatever exception its body raises, it
    returns the empty frame; so it does when the fetch fails, on a grid
    without rows, when [row_start] as passed is not below the row count, and
    when the header row has fewer cells than the clamped [column_start].  On
    a structural failure in the contract's sense (with [row_start] clamped
    first) the returned frame is only known to be empty for its callers'
    [df.empty] test. *)
Theorem get_worksheet_never_raises (fetched : Exc RawGrid)
    (row_start column_start limit_columns limit_rows : Z) :
  let df := get_worksheet fetched row_start column_start
              limit_columns limit_rows in
  (forall e : exn,
     get_worksheet_try fetched row_start column_start limit_columns limit_rows
     = Raise e -> df = pd_DataFrame_empty)
  /\ (forall e : exn, fetched = Raise e -> df = pd_DataFrame_empty)
  /\ (fetched = Ok [] -> df = pd_DataFrame_empty)
  /\ (forall grid : RawGrid, fetched = Ok grid ->
        py_len grid <= row_start -> df = pd_DataFrame_empty)
  /\ (forall grid : RawGrid, fetched = Ok grid ->
        py_len (spec_header_row grid row_start) < Z.max column_start 1 ->
        df = pd_DataFrame_empty)
  /\ (forall grid : RawGrid, fetched = Ok grid ->
        spec_structural_failure grid row_start column_start ->
        df_empty df = true).
Proof.
  cbv zeta.
  assert (forall grid : RawGrid,
            py_len (spec_header_row grid row_start) < Z.max column_start 1 ->
            get_worksheet (Ok grid) row_start column_start
              limit_columns limit_rows = pd_DataFrame_empty) as Hcolumn.
  { intros grid Hshort. unfold spec_header_row in Hshort.
    destruct (grid !! spec_r row_start) as [header_row|] eqn:Hhdr.
    - rewrite (list_lookup_total_correct _ _ _ Hhdr) in Hshort.
      by apply (extract_column_start_beyond grid header_row).
    - apply lookup_ge_None in Hhdr. destruct grid as [|first rest]; [done|].
      apply extract_row_start_beyond.
      unfold spec_r, py_len in *. cbn [length] in *. lia. }
  split; [|split; [|split; [|split; [|split]]]].
  - intros e He. unfold get_worksheet. by rewrite He.
  - by intros e ->.
  - by intros ->.
  - intros grid -> Hge. by apply extract_row_start_beyond.
  - intros grid ->. apply Hcolumn.
  - intros grid -> [-> | [Hrows | Hshort]]; [done | | by rewrite Hcolumn].
    destruct (Z.le_gt_cases 1 row_start) as [Hrs|Hrs].
    { fold (extract grid row_start column_start limit_columns limit_rows).
      rewrite extract_row_start_beyond by lia. done. }
    destruct grid as [|header_row [|second rest]]; [done | |].
    + destruct (Z.le_gt_cases (py_len header_row)
                  (at_least_1 column_start - 1)) as [Hshort|Hcol].
      * rewrite Hcolumn; [done|].
        unfold spec_header_row, spec_r.
        replace (Z.to_nat (Z.max row_start 1 - 1)) with O by lia.
        cbn. rewrite at_least_1_max in Hshort. lia.
      * fold (extract [header_row] row_start column_start
                limit_columns limit_rows).
        rewrite extract_one_row_below_1 by done.
        unfold df_empty. cbn. by case_match.
    + unfold py_len in Hrows. cbn [length] in Hrows. lia.
Qed.

(** Where the body does raise: the data row of [grid_long_row] is wider
    than the header, the frame constructor raises ValueError, and the
    caller gets the empty frame. *)
Lemma get_worksheet_never_raises_witness :
  get_worksheet_try (Ok grid_long_row) 1 1 0 0 = Raise ValueError
  /\ get_worksheet (Ok grid_long_row) 1 1 0 0 = pd_DataFrame_empty.
Proof.
  split; [reflexivity|].
  apply (proj1 (get_worksheet_never_raises (Ok grid_long_row) 1 1 0 0)
           ValueError).
  reflexivity.
Defined.

(** C7, at the failing input: on the one-row grid [["h1","h2"]] with
    row_start = 0 there is a structural failure in the contract's sense
    (the clamped row start, 1, equals the row count), and nothing is
    raised, but what comes back is not the empty Table with zero columns
    and zero rows: the body ends normally with the frame whose columns are
    ["h1","h2"].  Step 4 compared the unclamped row start with the row
    count, the defect of C2. *)
Theorem structural_failure_keeps_header_columns :
  spec_structural_failure grid_header_only 0 1
  /\ get_worksheet_try (Ok grid_header_only) 0 1 0 0
     = Ok {| columns := ["h1"; "h2"]%string; rows := [] |}
  /\ get_worksheet (Ok grid_header_only) 0 1 0 0
     = {| columns := ["h1"; "h2"]%string; rows := [] |}
  /\ get_worksheet (Ok grid_header_only) 0 1 0 0 <> pd_DataFrame_empty.
Proof.
  split; [right; left; by vm_compute|].
  split; [reflexivity|]. split; [reflexivity|].
  vm_compute. discriminate.
Qed.

(** C10: null normalization is never applied to column headers.  Whenever
    [extract] returns a frame with columns, the columns are the cells of the
    header row from the header column on (cut to [limit_columns] entries
    when that is positive and smaller), each cell as it is in the grid; an
    empty-string header cell stays the empty-string column name. *)
Theorem columns_are_header_slice (grid : RawGrid)
    (row_start column_start limit_columns limit_rows : Z) :
  let df := extract grid row_start column_start limit_columns limit_rows in
  0 <= limit_columns ->
  columns df <> [] ->
  columns df = spec_headers grid row_start column_start limit_columns
  /\ (forall j : nat, (j < length (columns df))%nat ->
        columns df !! j
        = spec_header_row grid row_start !! (spec_c column_start + j)%nat).
Proof.
  cbv zeta. intros Hlc Hcols. unfold extract in *.
  destruct (get_worksheet_cases grid row_start column_start
              limit_columns limit_rows)
    as [Hempty | (header_row & _ & Hhdr & _ & _ & Hdf)].
  { by rewrite Hempty in Hcols. }
  rewrite Hdf. cbn [columns].
  rewrite (headers_of_spec grid header_row row_start) by done.
  split; [done|].
  intros j Hj. unfold spec_headers in *. cbv zeta in *.
  case_bool_decide.
  - rewrite length_take in Hj. rewrite lookup_take_lt by lia.
    apply lookup_drop.
  - apply lookup_drop.
Qed.

(** C10 on a grid whose second header cell is blank. *)
Lemma columns_are_header_slice_witness :
  columns (extract grid_ragged 1 1 0 0) = ["a"; ""; "c"]%string
  /\ columns (extract grid_ragged 1 1 0 0) = spec_headers grid_ragged 1 1 0.
Proof.
  split; [reflexivity|].
  apply (columns_are_header_slice grid_ragged 1 1 0 0); [lia|].
  vm_compute. discriminate.
Defined.

(** ** Rows of the window *)

Lemma passes_checks (grid : RawGrid)
    (row_start column_start : Z) :
  ~ spec_structural_failure grid row_start column_start ->
  exists header_row : RawRow,
    row_start < py_len grid /\
    grid !! spec_r row_start = Some header_row /\
    at_least_1 column_start - 1 < py_len header_row.
Proof.
  intros Hpass. unfold spec_structural_failure in Hpass.
  assert (Z.max row_start 1 < py_len grid) as Hrow.
  { destruct (Z.le_gt_cases (py_len grid) (Z.max row_start 1)); [|lia].
    exfalso. apply Hpass. auto. }
  destruct (lookup_lt_is_Some_2 grid (spec_r row_start)) as [header_row Hhdr].
  { unfold spec_r, py_len in *. lia. }
  exists header_row. split; [lia|]. split; [done|].
  unfold spec_header_row in Hpass.
  rewrite (list_lookup_total_correct _ _ _ Hhdr) in Hpass.
  rewrite at_least_1_max.
  destruct (Z.le_gt_cases (Z.max column_start 1) (py_len header_row)); [lia|].
  exfalso. apply Hpass. auto.
Qed.

Lemma data_rows_of_spec (grid : RawGrid) (header_row : RawRow)
    (row_start column_start limit_columns limit_rows : Z) :
  grid !! spec_r row_start = Some header_row ->
  0 <= limit_columns ->
  data_rows_of grid header_row row_start column_start limit_columns limit_rows
  = spec_rows grid row_start column_start limit_columns limit_rows.
Proof.
  intros Hhdr Hlc. unfold data_rows_of, spec_rows. cbv zeta.
  rewrite (headers_of_spec grid header_row row_start) by done.
  assert (0 <= at_least_1 column_start - 1) as Hc
    by (rewrite at_least_1_max; lia).
  assert (Z.to_nat (at_least_1 column_start - 1) = spec_c column_start) as Hcc
    by (unfold spec_c; by rewrite at_least_1_max).
  rewrite (list_filter_iff _
             (fun data_row : RawRow =>
                (spec_c column_start < length data_row)%nat)).
  - apply list_fmap_ext. intros _ data_row _.
    rewrite process_row_spec by done. by rewrite Hcc.
  - intros data_row. unfold py_len. lia.
Qed.

(** C3, at the failing input: past the structural checks the output rows
    are to be one row per window row that reaches the header column, also
    when such a row has more cells than the header slice.  On
    [grid_long_row] the checks pass and the data row ["a","b"] reaches
    column 0, so it is to give the output row ["a","b"]; yet the frame has
    no row: the loop builds the row, the frame constructor refuses a row
    wider than the one header, and [get_worksheet] falls back to the empty
    frame. *)
Lemma long_row_loses_all_rows :
  ~ spec_structural_failure grid_long_row 1 1
  /\ spec_rows grid_long_row 1 1 0 0 = [[Some "a"; Some "b"]]%string
  /\ rows (extract grid_long_row 1 1 0 0) = []
  /\ rows (extract grid_long_row 1 1 0 0) <> spec_rows grid_long_row 1 1 0 0.
Proof.
  split; [|by vm_compute].
  intros [H | [H | H]]; [done | |]; vm_compute in H;
    first [discriminate | by apply H].
Qed.

(** Where no row is wider than the headers, the rows are as the
    specification describes them: for every grid and window that pass the
    structural checks
    and in which no row of the scanned range has, from the header column on
    and after the column limit, more cells than the header slice, every row
    of the scanned range whose cell count exceeds [c] contributes exactly
    one output row (its cells from [c] on, cut to [limit_columns] when that
    is positive, padded to the header count, blanks turned to null), in the
    original order; the columns are the header slice. *)
Theorem rows_follow_window (grid : RawGrid)
    (row_start column_start limit_columns limit_rows : Z) :
  0 <= limit_columns ->
  ~ spec_structural_failure grid row_start column_start ->
  Forall (fun data_row : RawRow =>
            (length (spec_truncate limit_columns
                       (drop (spec_c column_start) data_row))
             <= length (spec_headers grid row_start column_start
                          limit_columns))%nat)
    (spec_window grid row_start limit_rows) ->
  extract grid row_start column_start limit_columns limit_rows
  = {| columns := spec_headers grid row_start column_start limit_columns;
       rows := spec_rows grid row_start column_start
                 limit_columns limit_rows |}.
Proof.
  intros Hlc Hpass Hfit.
  destruct (passes_checks _ _ _ Hpass) as (header_row & Hrow & Hhdr & Hcol).
  unfold extract, get_worksheet.
  rewrite (get_worksheet_try_checked grid header_row) by done.
  rewrite (data_rows_of_spec grid header_row) by done.
  rewrite (headers_of_spec grid header_row row_start) by done.
  rewrite pd_DataFrame_exact; [done|].
  unfold spec_rows. cbv zeta. apply Forall_fmap, Forall_forall.
  intros data_row Hin. cbn.
  apply list_elem_of_filter in Hin as [_ Hin].
  rewrite Forall_forall in Hfit. specialize (Hfit data_row Hin).
  unfold spec_row, spec_pad.
  rewrite length_fmap, length_app, length_replicate. cbv beta in Hfit. lia.
Qed.

(** Scenario A of the specification. *)
Lemma rows_follow_window_witness :
  extract grid_scenario_A 1 1 0 0
  = {| columns := ["id"; "name"]%string;
       rows := [[Some "1"; Some "Alice"]; [Some "2"; None]]%string |}.
Proof.
  apply (rows_follow_window grid_scenario_A 1 1 0 0).
  - lia.
  - intros [H | [H | H]]; [done | |]; vm_compute in H;
    first [discriminate | by apply H].
  - vm_compute. repeat constructor.
Defined.

(** ** The row limit *)

Lemma spec_window_limited (grid : RawGrid) (row_start limit_rows : Z) :
  0 < limit_rows ->
  spec_window grid row_start limit_rows
  = take (Z.to_nat limit_rows) (drop (S (spec_r row_start)) grid).
Proof.
  intros Hlr. unfold spec_window. cbv zeta.
  rewrite bool_decide_eq_true_2 by done.
  set (rest := drop (S (spec_r row_start)) grid).
  assert (length rest = (length grid - S (spec_r row_start))%nat) as Hrest
    by apply length_drop.
  destruct (Nat.le_gt_cases (Z.to_nat limit_rows) (length rest)).
  - f_equal. lia.
  - rewrite !take_ge by lia. done.
Qed.

Lemma spec_window_unlimited (grid : RawGrid) (row_start : Z) :
  spec_window grid row_start 0 = drop (S (spec_r row_start)) grid.
Proof.
  unfold spec_window. cbv zeta. rewrite bool_decide_eq_false_2 by lia.
  apply take_ge. rewrite length_drop. lia.
Qed.

(** C6: with [limit_rows > 0] the loop ranges over exactly the indices
    r+1, r+2, ... below min(r+1+limit_rows, row count), in order; what it
    collects is the processed rows of the first [limit_rows] rows after the
    header row, a row that does not reach the header column giving nothing
    while using up its place; and the whole result is the result, without a
    row limit, on the grid cut after row r+limit_rows: rows past the window
    are never looked at, however few rows were emitted. *)
Theorem limit_rows_caps_scanned_range (grid : RawGrid)
    (row_start column_start limit_columns limit_rows : Z) :
  0 < limit_rows ->
  let r := spec_r row_start in
  let row_idx := at_least_1 row_start - 1 in
  let col_idx := at_least_1 column_start - 1 in
  py_range (start_data_row row_idx) (end_data_row grid row_idx limit_rows)
  = seqZ (Z.of_nat (S r))
      (Z.of_nat (Nat.min (S r + Z.to_nat limit_rows) (length grid) - S r))
  /\ ((r < length grid)%nat ->
      forall headers : list string,
        for_data_rows grid col_idx limit_columns headers
          (py_range (start_data_row row_idx)
                    (end_data_row grid row_idx limit_rows)) []
        = Ok (process_row col_idx limit_columns headers
                <$> filter (fun data_row : RawRow => col_idx < py_len data_row)
                      (take (Z.to_nat limit_rows) (drop (S r) grid))))
  /\ extract grid row_start column_start limit_columns limit_rows
     = extract (take (S r + Z.to_nat limit_rows) grid)
         row_start column_start limit_columns 0.
Proof.
  intros Hlr r row_idx col_idx.
  assert (row_idx = Z.of_nat r) as Hidx.
  { unfold row_idx, r, spec_r. rewrite at_least_1_max. lia. }
  assert (Z.of_nat r = Z.max row_start 1 - 1) as Hr0
    by (unfold r, spec_r; lia).
  split; [|split].
  - rewrite py_range_seqZ. unfold end_data_row, start_data_row, py_len.
    destruct (Z.gtb_spec limit_rows 0); [|lia]. rewrite Hidx.
    apply (f_equal2 seqZ); lia.
  - intros Hr headers. rewrite py_range_seqZ.
    rewrite for_data_rows_seqZ.
    + cbn [app]. unfold row_idx. rewrite scanned_rows_window.
      by rewrite spec_window_limited.
    + unfold start_data_row. lia.
    + unfold end_data_row, start_data_row, py_len.
      destruct (Z.gtb_spec limit_rows 0); lia.
  - destruct (decide (grid = [])) as [->|Hne]; [done|].
    assert (0 < length grid)%nat as Hpos by (destruct grid; [done|cbn; lia]).
    set (cut := take (S r + Z.to_nat limit_rows) grid).
    destruct (Z.le_gt_cases (py_len grid) row_start) as [Hge|Hlt].
    { rewrite (extract_row_start_beyond grid) by done.
      rewrite (extract_row_start_beyond cut); [done|].
      unfold cut, py_len in *. rewrite length_take. lia. }
    assert (r < length grid)%nat as Hr by (unfold py_len in Hlt; lia).
    destruct (lookup_lt_is_Some_2 grid r Hr) as [header_row Hhdr].
    assert (cut !! r = Some header_row) as Hhdr'.
    { unfold cut. rewrite lookup_take_lt by lia. exact Hhdr. }
    destruct (Z.le_gt_cases (py_len header_row) col_idx) as [Hshort|Hcol].
    { rewrite (extract_column_start_beyond grid header_row),
        (extract_column_start_beyond cut header_row); try done;
        unfold col_idx in Hshort; rewrite at_least_1_max in Hshort; lia. }
    unfold extract, get_worksheet.
    rewrite (get_worksheet_try_checked grid header_row) by done.
    rewrite (get_worksheet_try_checked cut header_row); [| |done|done].
    + unfold data_rows_of.
      rewrite spec_window_limited, spec_window_unlimited by done.
      fold r. unfold cut.
      rewrite take_drop_commute. done.
    + unfold cut, py_len. rewrite length_take. unfold py_len in Hlt. lia.
Qed.

(** C6 on [grid_ragged] from column 2 with [limit_rows = 2]: the two
    scanned rows are ["x"], which does not reach column 2, and ["y","z"];
    one row is emitted and the later row ["p","q","r"] is not. *)
Lemma limit_rows_caps_scanned_range_witness :
  rows (extract grid_ragged 1 2 0 2) = [[Some "z"; None]]%string
  /\ extract grid_ragged 1 2 0 2
     = extract [["a"; ""; "c"]; ["x"]; ["y"; "z"]]%string 1 2 0 0.
Proof.
  split; [reflexivity|].
  apply (limit_rows_caps_scanned_range grid_ragged 1 2 0 2). lia.
Defined.

(** ** The Pager *)

Lemma ltb_bool_decide (a b : Z) : (a <? b) = bool_decide (a < b).
Proof.
  destruct (Z.ltb_spec a b).
  - by rewrite bool_decide_eq_true_2.
  - by rewrite bool_decide_eq_false_2 by lia.
Qed.

Lemma gtb_bool_decide (a b : Z) : (a >? b) = bool_decide (b < a).
Proof. rewrite Z.gtb_ltb. apply ltb_bool_decide. Qed.

(** With a page size that is not 0 the Pager raises nothing; this is the
    response it builds. *)
Lemma paginate_both_present (df : DataFrame) (p ps : Z) :
  ps <> 0 ->
  paginate df (Some p) (Some ps)
  = Ok {| message := "Transactions retrieved successfully";
          data := to_record (columns df)
                    <$> py_slice (rows df) ((p - 1) * ps) ((p - 1) * ps + ps);
          total_rows := df_len df;
          paging := Some {| page := p;
                            page_size := ps;
                            total_pages := (df_len df + ps - 1) / ps;
                            has_next :=
                              bool_decide (p < (df_len df + ps - 1) / ps);
                            has_previous := bool_decide (1 < p) |} |}.
Proof.
  intros Hps. unfold paginate, py_floordiv. cbv zeta.
  destruct (Z.eqb_spec ps 0); [done|]. cbn [mbind exc_bind].
  by rewrite ltb_bool_decide, gtb_bool_decide.
Qed.

(** [(n + k - 1) // k] is the ceiling of [n / k]: the least number of pages
    of [k] rows that hold [n] rows. *)
Lemma total_pages_ceiling (n k : Z) :
  0 < k ->
  k * ((n + k - 1) / k - 1) < n <= k * ((n + k - 1) / k).
Proof.
  intros Hk.
  pose proof (Z.div_mod (n + k - 1) k ltac:(lia)) as Hdm.
  pose proof (Z.mod_pos_bound (n + k - 1) k Hk) as Hmod.
  lia.
Qed.

(** C8: for a table of [n >= 1] rows, a page [p >= 1] and a page size [ps]
    in 1..1000, both present, [paginate] returns [total_pages]
    = ceil(n / ps), as items the rows from index (p-1)*ps on, at most [ps]
    of them (the slice [(p-1)*ps, (p-1)*ps + ps) clamped to [0, n]),
    has_next = (p < total_pages) and has_previous = (p > 1). *)
Theorem paginate_page (df : DataFrame) (p ps : Z) :
  let n := df_len df in
  1 <= n -> 1 <= p -> 1 <= ps <= 1000 ->
  exists (tp : Z) (items : list (list cell)),
    ps * (tp - 1) < n <= ps * tp
    /\ items = take (Z.to_nat ps) (drop (Z.to_nat ((p - 1) * ps)) (rows df))
    /\ py_len items = Z.min n ((p - 1) * ps + ps) - Z.min n ((p - 1) * ps)
    /\ paginate df (Some p) (Some ps)
       = Ok {| message := "Transactions retrieved successfully";
               data := to_record (columns df) <$> items;
               total_rows := n;
               paging := Some {| page := p;
                                 page_size := ps;
                                 total_pages := tp;
                                 has_next := bool_decide (p < tp);
                                 has_previous := bool_decide (1 < p) |} |}.
Proof.
  intros n Hn Hp Hps.
  exists ((n + ps - 1) / ps),
         (take (Z.to_nat ps) (drop (Z.to_nat ((p - 1) * ps)) (rows df))).
  split; [apply total_pages_ceiling; lia|]. split; [done|]. split.
  - unfold py_len, n, df_len, py_len. rewrite length_take, length_drop. nia.
  - rewrite paginate_both_present by lia. fold n.
    rewrite py_slice_nonneg by nia.
    replace (Z.to_nat ((p - 1) * ps + ps) - Z.to_nat ((p - 1) * ps))%nat
      with (Z.to_nat ps) by nia.
    done.
Qed.

(** C8 on scenario D: page 3 of size 10 of a 25-row table is rows 20 to
    24, the last of 3 pages. *)
Lemma paginate_page_witness :
  exists (tp : Z) (items : list (list cell)),
    10 * (tp - 1) < 25 <= 10 * tp
    /\ items = take 10 (drop 20 (rows frame_25))
    /\ py_len items = 5
    /\ paginate frame_25 (Some 3) (Some 10)
       = Ok {| message := "Transactions retrieved successfully";
               data := to_record (columns frame_25) <$> items;
               total_rows := 25;
               paging := Some {| page := 3;
                                 page_size := 10;
                                 total_pages := tp;
                                 has_next := bool_decide (3 < tp);
                                 has_previous := bool_decide (1 < 3) |} |}.
Proof.
  apply (paginate_page frame_25 3 10); [by vm_compute | lia | lia].
Defined.

(** C9: a page beyond the last one is not an error.  For every table and
    every page greater than [total_pages], with a page size in 1..1000,
    [paginate] returns normally, with no items, has_next = false, and
    has_previous = true exactly when the page is greater than 1. *)
Theorem paginate_beyond_last_page (df : DataFrame) (p ps : Z) :
  1 <= ps <= 1000 ->
  (df_len df + ps - 1) / ps < p ->
  paginate df (Some p) (Some ps)
  = Ok {| message := "Transactions retrieved successfully";
          data := [];
          total_rows := df_len df;
          paging := Some {| page := p;
                            page_size := ps;
                            total_pages := (df_len df + ps - 1) / ps;
                            has_next := false;
                            has_previous := bool_decide (1 < p) |} |}.
Proof.
  intros Hps Hbeyond. rewrite paginate_both_present by lia.
  pose proof (total_pages_ceiling (df_len df) ps ltac:(lia)) as Hceil.
  pose proof (py_len_nonneg (rows df)) as Hn. fold (df_len df) in Hn.
  rewrite bool_decide_eq_false_2 by lia.
  rewrite py_slice_nonneg by nia.
  rewrite drop_ge by (unfold df_len, py_len in *; nia).
  by rewrite take_nil.
Qed.

(** C9 on scenario E: page 99 of size 10 of a 25-row table. *)
Lemma paginate_beyond_last_page_witness :
  paginate frame_25 (Some 99) (Some 10)
  = Ok {| message := "Transactions retrieved successfully";
          data := [];
          total_rows := 25;
          paging := Some {| page := 99;
                            page_size := 10;
                            total_pages := 3;
                            has_next := false;
                            has_previous := true |} |}.
Proof.
  apply (paginate_beyond_last_page frame_25 99 10); [lia | by vm_compute].
Defined.

(** ** The endpoint around the Pager *)

(** The frame of the whole sheet has columns whenever it has rows, so the
    endpoint's [df.empty] test asks whether there are rows. *)
Lemma whole_sheet_empty_iff_no_rows (fetched : Exc RawGrid) :
  let df := get_worksheet fetched 1 1 0 0 in
  df_empty df = bool_decide (rows df = []).
Proof.
  cbv zeta. destruct fetched as [grid|e]; [|done].
  destruct (get_worksheet_cases grid 1 1 0 0)
    as [-> | (header_row & _ & _ & Hcol & _ & ->)]; [done|].
  unfold df_empty. cbn [columns rows].
  unfold headers_of, limit_to. cbn [Z.eqb negb andb].
  rewrite py_slice_from_nonneg by (cbn; lia). cbn [at_least_1 Z.ltb Z.compare].
  cbn in Hcol. unfold py_len in Hcol.
  destruct header_row as [|name names]; [cbn in Hcol; lia|]. cbn.
  by destruct (data_rows_of _ _ _ _ _ _).
Qed.

(** X19: With rows in the sheet the endpoint answers what the Pager builds, and
    without rows it answers that there are no transactions. *)
Lemma return_transactions_paginate (fetched : Exc RawGrid)
    (page page_size : option Z) :
  let df := get_worksheet fetched 1 1 0 0 in
  return_transactions fetched page page_size
  = if bool_decide (rows df = [])
    then Ok {| message := "No transactions found";
               data := [];
               total_rows := 0;
               paging := None |}
    else match paginate df page page_size with
         | Ok response => Ok response
         | Raise _ => Raise (HTTPException 500)
         end.
Proof.
  cbv zeta. unfold return_transactions. cbv zeta.
  rewrite whole_sheet_empty_iff_no_rows. by case_bool_decide.
Qed.

(** * Further properties of the code *)

(** ** get_worksheet: what the body can raise *)

Lemma pd_DataFrame_raises (data : list (list cell)) (cols : list string)
    (e : exn) :
  pd_DataFrame data cols = Raise e ->
  e = ValueError
  /\ exists row : list cell, row ∈ data /\ length row <> length cols.
Proof.
  intros Hraise.
  destruct (decide (Forall (fun row : list cell => length row = length cols)
                      data)) as [Hall|Hnot].
  { by rewrite (pd_DataFrame_exact _ _ Hall) in Hraise. }
  apply not_Forall_Exists in Hnot; [|intros row; apply _].
  apply Exists_exists in Hnot as (row & Hin & Hlen).
  unfold compose in Hlen. split; [|by exists row].
  unfold pd_DataFrame in Hraise. cbv zeta in Hraise.
  destruct data; [done|]. case_match; [done|]. by injection Hraise as <-.
Qed.

(** X1: On a grid that was fetched the body never raises IndexError: its one
    exception is the ValueError of the frame constructor, raised when some
    row of the scanned range that reaches the starting column gives, after
    the column limit, more cells than there are headers. *)
Theorem body_raises_only_for_wide_row (grid : RawGrid)
    (row_start column_start limit_columns limit_rows : Z) (e : exn) :
  get_worksheet_try (Ok grid) row_start column_start limit_columns limit_rows
  = Raise e ->
  e = ValueError
  /\ exists header_row data_row : RawRow,
       grid !! spec_r row_start = Some header_row
       /\ data_row ∈ spec_window grid row_start limit_rows
       /\ at_least_1 column_start - 1 < py_len data_row
       /\ (length (headers_of header_row column_start limit_columns)
           < length (limit_to limit_columns
                       (py_slice_from data_row (at_least_1 column_start - 1))))%nat.
Proof.
  intros Hraise.
  destruct (get_worksheet_try_cases grid row_start column_start
              limit_columns limit_rows)
    as [Hok | (header_row & _ & Hhdr & _ & Heq)];
    [by rewrite Hok in Hraise|].
  rewrite Heq in Hraise.
  apply pd_DataFrame_raises in Hraise as (-> & row & Hin & Hlen).
  split; [done|]. unfold data_rows_of in Hin.
  apply list_elem_of_fmap in Hin as (data_row & -> & Hin).
  apply list_elem_of_filter in Hin as [Hreach Hin].
  exists header_row, data_row. repeat split; try done.
  rewrite process_row_length in Hlen. lia.
Qed.

Lemma body_raises_only_for_wide_row_witness :
  ValueError = ValueError
  /\ exists header_row data_row : RawRow,
       grid_long_row !! spec_r 1 = Some header_row
       /\ data_row ∈ spec_window grid_long_row 1 0
       /\ at_least_1 1 - 1 < py_len data_row
       /\ (length (headers_of header_row 1 0)
           < length (limit_to 0 (py_slice_from data_row (at_least_1 1 - 1))))%nat.
Proof.
  apply (body_raises_only_for_wide_row grid_long_row 1 1 0 0 ValueError).
  reflexivity.
Defined.

(** ** get_worksheet: rectangular grids *)

Lemma filter_all {A : Type} (P : A -> Prop) `{forall x, Decision (P x)}
    (l : list A) :
  Forall P l -> filter P l = l.
Proof.
  induction 1 as [|x l Hx _ IH]; [done|].
  rewrite filter_cons_True by done. by rewrite IH.
Qed.

Lemma filter_fmap {A B : Type} (f : A -> B) (P : B -> Prop)
    `{forall y, Decision (P y)} (l : list A) :
  filter P (f <$> l) = f <$> filter (fun x => P (f x)) l.
Proof.
  induction l as [|x l IH]; [done|].
  rewrite fmap_cons, !filter_cons. case_decide; by rewrite IH.
Qed.

Lemma spec_truncate_length (limit_columns : Z) (cells : list string) :
  length (spec_truncate limit_columns cells)
  = if bool_decide (0 < limit_columns)
    then Nat.min (Z.to_nat limit_columns) (length cells)
    else length cells.
Proof.
  unfold spec_truncate. case_bool_decide; [apply length_take | done].
Qed.

Lemma spec_headers_truncate (grid : RawGrid)
    (row_start column_start limit_columns : Z) :
  spec_headers grid row_start column_start limit_columns
  = spec_truncate limit_columns
      (drop (spec_c column_start) (spec_header_row grid row_start)).
Proof.
  unfold spec_headers, spec_truncate, py_len. cbv zeta.
  set (slice := drop _ _).
  destruct (decide (0 < limit_columns)).
  - rewrite (bool_decide_eq_true_2 (0 < limit_columns)) by done.
    case_bool_decide; [done|]. by rewrite take_ge by lia.
  - rewrite !bool_decide_eq_false_2 by lia. done.
Qed.

Lemma spec_window_subseteq (grid : RawGrid) (row_start limit_rows : Z) :
  spec_window grid row_start limit_rows ⊆ grid.
Proof.
  unfold spec_window. cbv zeta. intros row Hin.
  by apply subseteq_take, subseteq_drop in Hin.
Qed.

(** X2: On a rectangular grid (every row has [width] cells, as gspread delivers
    it) whose row and column starts are inside the grid, nothing is skipped
    and nothing fails: the columns are the header slice and there is one
    output row for every row of the window. *)
Theorem rectangular_grid_keeps_every_row (grid : RawGrid) (width : nat)
    (row_start column_start limit_columns limit_rows : Z) :
  Forall (fun row : RawRow => length row = width) grid ->
  grid <> [] ->
  row_start < py_len grid ->
  Z.max column_start 1 <= Z.of_nat width ->
  0 <= limit_columns ->
  let df := extract grid row_start column_start limit_columns limit_rows in
  columns df = spec_headers grid row_start column_start limit_columns
  /\ rows df = spec_row (spec_c column_start) limit_columns
                 (length (columns df))
                 <$> spec_window grid row_start limit_rows
  /\ length (rows df) = length (spec_window grid row_start limit_rows).
Proof.
  intros Hrect Hne Hrow Hcol Hlc.
  assert (0 < length grid)%nat as Hpos by (destruct grid; [done|cbn; lia]).
  destruct (lookup_lt_is_Some_2 grid (spec_r row_start)) as [header_row Hhdr].
  { unfold spec_r, py_len in *. lia. }
  pose proof (Forall_lookup_1 _ _ _ _ Hrect Hhdr) as Hw. cbv beta in Hw.
  assert (at_least_1 column_start - 1 < py_len header_row) as Hcol'.
  { rewrite at_least_1_max. unfold py_len. lia. }
  assert (Forall (fun row : RawRow => (spec_c column_start < length row)%nat)
            (spec_window grid row_start limit_rows)) as Hreach.
  { apply Forall_forall. intros row Hin.
    apply spec_window_subseteq in Hin.
    rewrite Forall_forall in Hrect. rewrite (Hrect row Hin).
    unfold spec_c. lia. }
  assert (extract grid row_start column_start limit_columns limit_rows
          = {| columns := spec_headers grid row_start column_start
                            limit_columns;
               rows := spec_rows grid row_start column_start
                         limit_columns limit_rows |}) as Heq.
  { unfold extract, get_worksheet.
    rewrite (get_worksheet_try_checked grid header_row) by done.
    rewrite (data_rows_of_spec grid header_row) by done.
    rewrite (headers_of_spec grid header_row row_start) by done.
    rewrite pd_DataFrame_exact; [done|].
    unfold spec_rows. cbv zeta. apply Forall_fmap, Forall_forall.
    intros row Hin. cbn. apply list_elem_of_filter in Hin as [_ Hin].
    apply spec_window_subseteq in Hin.
    rewrite Forall_forall in Hrect. specialize (Hrect row Hin).
    unfold spec_row, spec_pad.
    rewrite length_fmap, length_app, length_replicate.
    rewrite spec_headers_truncate, !spec_truncate_length, !length_drop.
    unfold spec_header_row.
    rewrite (list_lookup_total_correct _ _ _ Hhdr), Hw, Hrect. lia. }
  cbv zeta. rewrite Heq. cbn [columns rows]. unfold spec_rows. cbv zeta.
  rewrite (filter_all _ _ Hreach). by rewrite length_fmap.
Qed.

Lemma rectangular_grid_keeps_every_row_witness :
  let df := extract grid_scenario_A 1 2 0 0 in
  columns df = spec_headers grid_scenario_A 1 2 0
  /\ rows df = spec_row (spec_c 2) 0 (length (columns df))
                 <$> spec_window grid_scenario_A 1 0
  /\ length (rows df) = length (spec_window grid_scenario_A 1 0).
Proof.
  apply (rectangular_grid_keeps_every_row grid_scenario_A 2 1 2 0 0).
  - repeat constructor.
  - discriminate.
  - by vm_compute.
  - lia.
  - lia.
Defined.

(** ** get_worksheet: starts below 1 *)

(** X3: A [column_start] below 1 reads as 1 on every grid; a [row_start] below
    1 reads as 1 on every grid that does not have exactly one row. *)
Theorem start_below_1_reads_as_1 (grid : RawGrid)
    (row_start column_start limit_columns limit_rows : Z) :
  (column_start < 1 ->
   extract grid row_start column_start limit_columns limit_rows
   = extract grid row_start 1 limit_columns limit_rows)
  /\ (row_start < 1 -> length grid <> 1%nat ->
      extract grid row_start column_start limit_columns limit_rows
      = extract grid 1 column_start limit_columns limit_rows).
Proof.
  split.
  - intros Hcs. unfold extract, get_worksheet, get_worksheet_try. cbv zeta.
    replace (at_least_1 column_start) with (at_least_1 1); [done|].
    rewrite !at_least_1_max. lia.
  - intros Hrs Hlen. destruct grid as [|first [|second rest]]; [done|done|].
    unfold extract, get_worksheet, get_worksheet_try. cbv zeta.
    cbn [mbind exc_bind].
    replace (at_least_1 row_start) with (at_least_1 1)
      by (rewrite !at_least_1_max; lia).
    rewrite !Z.geb_leb.
    destruct (Z.leb_spec (py_len (first :: second :: rest)) row_start)
      as [Hle|_]; [unfold py_len in Hle; cbn [length] in Hle; lia|].
    destruct (Z.leb_spec (py_len (first :: second :: rest)) 1)
      as [Hle|_]; [unfold py_len in Hle; cbn [length] in Hle; lia|].
    done.
Qed.

Lemma start_below_1_reads_as_1_witness :
  extract grid_ragged 1 (-3) 0 0 = extract grid_ragged 1 1 0 0
  /\ extract grid_ragged 0 2 0 0 = extract grid_ragged 1 2 0 0.
Proof.
  split.
  - apply (proj1 (start_below_1_reads_as_1 grid_ragged 1 (-3) 0 0)). lia.
  - apply (proj2 (start_below_1_reads_as_1 grid_ragged 0 2 0 0)); [lia|].
    vm_compute. discriminate.
Defined.

(** ** get_worksheet: the column limit *)

Lemma spec_window_fmap (f : RawRow -> RawRow) (grid : RawGrid)
    (row_start limit_rows : Z) :
  spec_window (f <$> grid) row_start limit_rows
  = f <$> spec_window grid row_start limit_rows.
Proof.
  unfold spec_window. cbv zeta.
  by rewrite length_fmap, fmap_take, fmap_drop.
Qed.

Lemma headers_of_take (header_row : RawRow) (column_start limit_columns : Z) :
  0 < limit_columns ->
  headers_of
    (take (spec_c column_start + Z.to_nat limit_columns) header_row)
    column_start 0
  = headers_of header_row column_start limit_columns.
Proof.
  intros Hlc. unfold headers_of.
  assert (0 <= at_least_1 column_start - 1) as Hc
    by (rewrite at_least_1_max; lia).
  rewrite !py_slice_from_nonneg, !limit_to_spec by lia.
  unfold spec_truncate.
  rewrite bool_decide_eq_false_2, bool_decide_eq_true_2 by lia.
  rewrite at_least_1_max. fold (spec_c column_start).
  by rewrite take_drop_commute.
Qed.

Lemma process_row_take (column_start limit_columns : Z)
    (headers : list string) (data_row : RawRow) :
  0 < limit_columns ->
  process_row (at_least_1 column_start - 1) 0 headers
    (take (spec_c column_start + Z.to_nat limit_columns) data_row)
  = process_row (at_least_1 column_start - 1) limit_columns headers data_row.
Proof.
  intros Hlc. unfold process_row.
  assert (0 <= at_least_1 column_start - 1) as Hc
    by (rewrite at_least_1_max; lia).
  rewrite !py_slice_from_nonneg, !limit_to_spec by lia.
  unfold spec_truncate.
  rewrite bool_decide_eq_false_2, bool_decide_eq_true_2 by lia.
  rewrite at_least_1_max. fold (spec_c column_start).
  by rewrite take_drop_commute.
Qed.

(** X4: A positive [limit_columns] is the same as cutting every row of the grid
    after [limit_columns] cells from the starting column and reading
    without a column limit: cells past that column make no difference. *)
Theorem limit_columns_cuts_grid (grid : RawGrid)
    (row_start column_start limit_columns limit_rows : Z) :
  0 < limit_columns ->
  extract grid row_start column_start limit_columns limit_rows
  = extract
      (take (spec_c column_start + Z.to_nat limit_columns) <$> grid)
      row_start column_start 0 limit_rows.
Proof.
  intros Hlc.
  set (k := (spec_c column_start + Z.to_nat limit_columns)%nat).
  destruct (decide (grid = [])) as [->|Hne]; [done|].
  assert (0 < length grid)%nat as Hpos by (destruct grid; [done|cbn; lia]).
  destruct (Z.le_gt_cases (py_len grid) row_start) as [Hge|Hlt].
  { rewrite (extract_row_start_beyond grid) by done.
    rewrite extract_row_start_beyond; [done|].
    unfold py_len in *. by rewrite length_fmap. }
  destruct (lookup_lt_is_Some_2 grid (spec_r row_start)) as [header_row Hhdr].
  { unfold spec_r, py_len in *. lia. }
  assert ((take k <$> grid) !! spec_r row_start = Some (take k header_row))
    as Hhdr' by (by rewrite list_lookup_fmap, Hhdr).
  assert (Z.of_nat (spec_c column_start) = at_least_1 column_start - 1)
    as Hc by (unfold spec_c; rewrite at_least_1_max; lia).
  destruct (Z.le_gt_cases (py_len header_row) (at_least_1 column_start - 1))
    as [Hshort|Hcol].
  { rewrite (extract_column_start_beyond grid header_row);
      [|done|rewrite at_least_1_max in Hshort; lia].
    rewrite (extract_column_start_beyond _ (take k header_row)); [done|done|].
    unfold py_len in *. rewrite length_take.
    rewrite at_least_1_max in Hshort. lia. }
  unfold extract, get_worksheet.
  rewrite (get_worksheet_try_checked grid header_row) by done.
  rewrite (get_worksheet_try_checked _ (take k header_row)); [|  |done|].
  - unfold k, data_rows_of. rewrite !headers_of_take by done.
    rewrite spec_window_fmap.
    rewrite filter_fmap, <- list_fmap_compose.
    rewrite (list_filter_iff
               (fun data_row : RawRow =>
                  at_least_1 column_start - 1
                  < py_len (take (spec_c column_start
                                  + Z.to_nat limit_columns) data_row))
               (fun data_row : RawRow =>
                  at_least_1 column_start - 1 < py_len data_row)).
    + rewrite (list_fmap_ext
                 (process_row (at_least_1 column_start - 1) 0
                    (headers_of header_row column_start limit_columns)
                  ∘ take (spec_c column_start + Z.to_nat limit_columns))
                 (process_row (at_least_1 column_start - 1) limit_columns
                    (headers_of header_row column_start limit_columns)));
        [done|].
      intros _ data_row _. cbn. by apply process_row_take.
    + intros data_row. unfold py_len. rewrite length_take. lia.
  - unfold py_len in *. by rewrite length_fmap.
  - unfold py_len in *. rewrite length_take. unfold k. lia.
Qed.

Lemma limit_columns_cuts_grid_witness :
  extract grid_ragged 1 2 1 0
  = extract [["a"; ""]; ["x"]; ["y"; "z"]; []; ["p"; "q"]]%string 1 2 0 0.
Proof.
  apply (limit_columns_cuts_grid grid_ragged 1 2 1 0). lia.
Defined.

(** ** get_worksheet: how large the result can be *)

Lemma spec_window_length (grid : RawGrid) (row_start limit_rows : Z) :
  (length (spec_window grid row_start limit_rows) <= length grid - 1)%nat
  /\ (0 < limit_rows ->
      (length (spec_window grid row_start limit_rows)
       <= Z.to_nat limit_rows)%nat).
Proof.
  unfold spec_window. cbv zeta. rewrite length_take, length_drop. split.
  - lia.
  - intros Hlr. rewrite bool_decide_eq_true_2 by done. lia.
Qed.

(** X5: The limits bound the frame: with [limit_columns > 0] there are at most
    [limit_columns] columns, with [limit_rows > 0] at most [limit_rows]
    rows, and in every case fewer rows than the grid has, the header row
    never being a data row. *)
Theorem limits_bound_the_frame (grid : RawGrid)
    (row_start column_start limit_columns limit_rows : Z) :
  let df := extract grid row_start column_start limit_columns limit_rows in
  (0 < limit_columns -> py_len (columns df) <= limit_columns)
  /\ (0 < limit_rows -> py_len (rows df) <= limit_rows)
  /\ (grid <> [] -> py_len (rows df) < py_len grid).
Proof.
  cbv zeta. unfold extract.
  destruct (get_worksheet_cases grid row_start column_start
              limit_columns limit_rows)
    as [-> | (header_row & _ & _ & _ & _ & ->)].
  { unfold py_len. cbn. repeat split; try lia.
    intros Hne. destruct grid; [done|cbn; lia]. }
  cbn [columns rows].
  pose proof (spec_window_length grid row_start limit_rows) as [Hall Hlim].
  assert (length (data_rows_of grid header_row row_start column_start
                    limit_columns limit_rows)
          <= length (spec_window grid row_start limit_rows))%nat as Hdata.
  { unfold data_rows_of. rewrite length_fmap. apply length_filter. }
  unfold py_len. repeat split.
  - intros Hlc.
    pose proof (headers_of_length_le header_row column_start
                  limit_columns Hlc). lia.
  - intros Hlr. specialize (Hlim Hlr). lia.
  - intros Hne. destruct grid; [done|]. cbn [length] in *. lia.
Qed.

Lemma limits_bound_the_frame_witness :
  py_len (columns (extract grid_ragged 1 1 2 3)) <= 2
  /\ py_len (rows (extract grid_ragged 1 1 2 3)) <= 3
  /\ py_len (rows (extract grid_ragged 1 1 2 3)) < py_len grid_ragged.
Proof.
  pose proof (limits_bound_the_frame grid_ragged 1 1 2 3) as (Hc & Hr & Hg).
  split; [apply Hc; lia|]. split; [apply Hr; lia|].
  apply Hg. discriminate.
Defined.

(** ** _verify_api_key *)

#[local] Set Warnings "-clear-no-such-hyp".

(** X6: A request is let through exactly when [API_KEY] is set, is not the
    empty string, and equals the bearer token; what is returned is then the
    token.  With [API_KEY] unset or empty every token, the empty one too,
    gets a 500; with a key configured every other token gets a 401. *)
Theorem verify_api_key_accepts_only_the_key (API_KEY : option string)
    (credentials : string) :
  (forall accepted : string,
     _verify_api_key API_KEY credentials = Ok accepted
     <-> API_KEY = Some credentials /\ credentials <> ""%string
         /\ accepted = credentials)
  /\ (_verify_api_key API_KEY credentials = Raise (HTTPException 500)
      <-> API_KEY = None \/ API_KEY = Some ""%string)
  /\ (_verify_api_key API_KEY credentials = Raise (HTTPException 401)
      <-> exists api_key : string,
            API_KEY = Some api_key /\ api_key <> ""%string
            /\ credentials <> api_key).
Proof.
  unfold _verify_api_key.
  destruct API_KEY as [api_key|];
    [destruct (String.eqb_spec api_key "") as [->|Hkey];
     [|destruct (String.eqb_spec credentials api_key) as [->|Hne]]|];
    cbn [negb]; naive_solver.
Qed.

(** ** get_credentials_dict and the client *)

Section CredentialsFacts.
Context {Json Client : Type}.
Variable json_loads : string -> option Json.
Variable authorize : Json -> option Client.
Variable get_all_values : Client -> string -> string -> Exc RawGrid.

(** X7: Credentials are obtained in exactly two ways: from a
    [GOOGLE_CREDENTIALS] value that is not empty and parses, or, when the
    variable is unset or empty, from an existing, readable token file that
    parses.  A value of the variable that does not parse is not made up for
    by the token file. *)
Theorem credentials_come_from_one_source (GOOGLE_CREDENTIALS : option string)
    (token_file : option (option string)) (credentials_dict : Json) :
  get_credentials_dict json_loads GOOGLE_CREDENTIALS token_file
  = inr credentials_dict
  <-> (exists text : string,
         GOOGLE_CREDENTIALS = Some text /\ text <> ""%string
         /\ json_loads text = Some credentials_dict)
      \/ ((GOOGLE_CREDENTIALS = None \/ GOOGLE_CREDENTIALS = Some ""%string)
          /\ exists text : string,
               token_file = Some (Some text)
               /\ json_loads text = Some credentials_dict).
Proof.
  assert (read_token_file json_loads token_file = inr credentials_dict
          <-> exists text : string,
                token_file = Some (Some text)
                /\ json_loads text = Some credentials_dict) as Hfile.
  { unfold read_token_file. destruct token_file as [[text|]|].
    - destruct (json_loads text) as [d|] eqn:Hd.
      + split.
        * intros [= <-]. by exists text.
        * intros (t & [= <-] & Ht). congruence.
      + split; [done|]. intros (t & [= <-] & Ht). congruence.
    - split; [done|]. by intros (t & ? & _).
    - split; [done|]. by intros (t & ? & _). }
  unfold get_credentials_dict.
  destruct GOOGLE_CREDENTIALS as [text|].
  - destruct (String.eqb_spec text "") as [->|Hne].
    + rewrite Hfile. split.
      * intros H. right. split; [by right | done].
      * intros [(t & [= <-] & Ht & _) | (_ & H)]; done.
    + destruct (json_loads text) as [d|] eqn:Hd.
      * split.
        -- intros [= <-]. left. by exists text.
        -- intros [(t & [= <-] & _ & Ht) | ([?|[= ?]] & _)]; congruence.
      * split; [done|].
        intros [(t & [= <-] & _ & Ht) | ([?|[= ?]] & _)]; congruence.
  - rewrite Hfile. split.
    + intros H. right. split; [by left | done].
    + intros [(t & ? & _) | (_ & H)]; done.
Qed.

(** X8: When the client cannot be made (no credentials, credentials that do not
    parse, a refused authorization), [get_worksheet] returns the empty
    frame and both endpoints answer as for a sheet without data, not with
    an error. *)
Theorem missing_client_reads_as_no_data (GOOGLE_CREDENTIALS : option string)
    (token_file : option (option string))
    (spreadsheet_name worksheet_name : string) (e : cred_exn)
    (row_start column_start limit_columns limit_rows : Z)
    (page page_size : option Z) :
  get_gspread_client json_loads authorize GOOGLE_CREDENTIALS token_file
  = inl e ->
  let fetched := fetch_all_values json_loads authorize get_all_values
                   GOOGLE_CREDENTIALS token_file
                   spreadsheet_name worksheet_name in
  get_worksheet fetched row_start column_start limit_columns limit_rows
  = pd_DataFrame_empty
  /\ get_worksheet_data fetched row_start column_start
       limit_columns limit_rows
     = Ok {| ws_message := "No data found or unable to retrieve data";
             ws_total_rows := 0;
             ws_columns := None;
             ws_data := [] |}
  /\ return_transactions fetched page page_size
     = Ok {| message := "No transactions found";
             data := [];
             total_rows := 0;
             paging := None |}.
Proof.
  intros Hclient. cbv zeta. unfold fetch_all_values. rewrite Hclient.
  repeat split.
Qed.
End CredentialsFacts.

(** No [GOOGLE_CREDENTIALS] and no token file: FileNotFoundError in
    [get_credentials_dict], and "no data" at the endpoints. *)
Lemma missing_client_reads_as_no_data_witness :
  let fetched :=
    fetch_all_values (fun _ : string => Some tt) (fun _ : unit => Some tt)
      (fun (_ : unit) (_ _ : string) => Ok grid_scenario_A)
      None None "Budget tracker" "transactions" in
  get_worksheet fetched 1 1 0 0 = pd_DataFrame_empty
  /\ get_worksheet_data fetched 1 1 0 0
     = Ok {| ws_message := "No data found or unable to retrieve data";
             ws_total_rows := 0;
             ws_columns := None;
             ws_data := [] |}
  /\ return_transactions fetched (Some 1) (Some 10)
     = Ok {| message := "No transactions found";
             data := [];
             total_rows := 0;
             paging := None |}.
Proof.
  apply (missing_client_reads_as_no_data
           (fun _ : string => Some tt) (fun _ : unit => Some tt)
           (fun (_ : unit) (_ _ : string) => Ok grid_scenario_A)
           None None "Budget tracker" "transactions" FileNotFoundError
           1 1 0 0 (Some 1) (Some 10)).
  reflexivity.
Defined.

(** ** Records *)

Lemma dict_set_fresh (k : string) (v : cell) (d : record) :
  k ∉ d.*1 -> dict_set k v d = d ++ [(k, v)].
Proof.
  induction d as [|[k' v'] d IH]; intros Hk; [done|].
  cbn in *. apply not_elem_of_cons in Hk as [Hne Hk].
  destruct (String.eqb_spec k k'); [done|]. by rewrite IH.
Qed.

Lemma dict_set_keys (k : string) (v : cell) (d : record) :
  (dict_set k v d).*1 = if bool_decide (k ∈ d.*1) then d.*1 else d.*1 ++ [k].
Proof.
  induction d as [|[k' v'] d IH]; [done|].
  cbn. destruct (String.eqb_spec k k') as [->|Hne].
  - rewrite bool_decide_eq_true_2 by apply list_elem_of_here. done.
  - cbn. rewrite IH. case_bool_decide as Hin.
    + rewrite bool_decide_eq_true_2 by (by apply list_elem_of_further). done.
    + rewrite bool_decide_eq_false_2; [done|].
      intros [?|?]%elem_of_cons; done.
Qed.

Lemma dict_get_set (k k' : string) (v : cell) (d : record) :
  dict_get k' (dict_set k v d)
  = if String.eqb k' k then Some v else dict_get k' d.
Proof.
  induction d as [|[k0 v0] d IH]; cbn.
  - done.
  - destruct (String.eqb_spec k k0) as [->|Hne]; cbn.
    + by destruct (String.eqb_spec k' k0).
    + destruct (String.eqb_spec k' k0) as [->|Hne'].
      * destruct (String.eqb_spec k0 k); [congruence | done].
      * apply IH.
Qed.

Lemma dict_get_app (k : string) (d1 d2 : record) :
  dict_get k (d1 ++ d2)
  = match dict_get k d1 with
    | Some v => Some v
    | None => dict_get k d2
    end.
Proof.
  induction d1 as [|[k0 v0] d1 IH]; [done|].
  cbn. by destruct (String.eqb k k0).
Qed.

Lemma fold_dict_set_get (k : string) (items acc : record) :
  dict_get k (fold_left (fun d kv => dict_set kv.1 kv.2 d) items acc)
  = match dict_get k (reverse items) with
    | Some v => Some v
    | None => dict_get k acc
    end.
Proof.
  revert acc. induction items as [|[k0 v0] items IH]; intros acc; [done|].
  cbn [fold_left]. rewrite IH, reverse_cons, dict_get_app. cbn.
  rewrite dict_get_set.
  destruct (dict_get k (reverse items)); [done|].
  by destruct (String.eqb k k0).
Qed.

Lemma fold_dict_set_fresh (items acc : record) :
  NoDup (acc.*1 ++ items.*1) ->
  fold_left (fun d kv => dict_set kv.1 kv.2 d) items acc = acc ++ items.
Proof.
  revert acc. induction items as [|[k v] items IH]; intros acc Hnd.
  - by rewrite app_nil_r.
  - cbn [fold_left fst snd]. cbn in Hnd.
    rewrite dict_set_fresh.
    + rewrite IH; [by rewrite <- app_assoc|].
      rewrite fmap_app. cbn. by rewrite <- app_assoc.
    + apply NoDup_app in Hnd as (_ & Hdisj & _).
      intros Hin. apply (Hdisj k Hin). apply list_elem_of_here.
Qed.

Lemma fold_dict_set_keys_NoDup (items acc : record) :
  NoDup acc.*1 ->
  NoDup (fold_left (fun d kv => dict_set kv.1 kv.2 d) items acc).*1.
Proof.
  revert acc. induction items as [|[k v] items IH]; intros acc Hnd; [done|].
  cbn [fold_left fst snd]. apply IH. rewrite dict_set_keys.
  case_bool_decide as Hin; [done|].
  apply NoDup_app. split; [done|]. split.
  - intros x Hx [->|[]%elem_of_nil]%elem_of_cons. done.
  - apply NoDup_singleton.
Qed.

(** X9: With column names that are all different a record is the columns
    paired with the cells of the row, in column order: no cell is lost and
    none is moved. *)
Theorem record_of_distinct_columns (cols : list string) (row : list cell) :
  NoDup cols ->
  length row = length cols ->
  to_record cols row = zip cols row
  /\ (to_record cols row).*1 = cols
  /\ (to_record cols row).*2 = row.
Proof.
  intros Hnd Hlen. unfold to_record.
  rewrite fold_dict_set_fresh.
  - cbn. split; [done|]. split; [apply fst_zip | apply snd_zip]; lia.
  - cbn. rewrite fst_zip by lia. done.
Qed.

Lemma record_of_distinct_columns_witness :
  to_record ["id"; "name"]%string [Some "2"; None]%string
  = zip ["id"; "name"]%string [Some "2"; None]%string
  /\ (to_record ["id"; "name"]%string [Some "2"; None]%string).*1
     = ["id"; "name"]%string
  /\ (to_record ["id"; "name"]%string [Some "2"; None]%string).*2
     = [Some "2"; None]%string.
Proof.
  apply (record_of_distinct_columns ["id"; "name"]%string
           [Some "2"; None]%string).
  - apply NoDup_cons. split; [|apply NoDup_singleton].
    intros Hin. apply list_elem_of_singleton in Hin. discriminate.
  - reflexivity.
Defined.

(** X10: Whatever the column names, a record holds each name once, and the value
    under a name is the cell of the last column of that name: with
    duplicate names the earlier cells are dropped from the record. *)
Theorem record_keeps_last_duplicate (cols : list string) (row : list cell)
    (k : string) :
  NoDup (to_record cols row).*1
  /\ dict_get k (to_record cols row) = dict_get k (reverse (zip cols row)).
Proof.
  unfold to_record. split.
  - apply fold_dict_set_keys_NoDup. constructor.
  - rewrite fold_dict_set_get. by destruct (dict_get k (reverse _)).
Qed.

(** ** get_worksheet_data *)

Lemma df_empty_iff (df : DataFrame) :
  df_empty df = true <-> rows df = [] \/ columns df = [].
Proof.
  unfold df_empty. destruct (columns df), (rows df); naive_solver.
Qed.

(** The frame [get_worksheet] returns is rectangular. *)
Lemma get_worksheet_rectangular (fetched : Exc RawGrid)
    (row_start column_start limit_columns limit_rows : Z) :
  let df := get_worksheet fetched row_start column_start
              limit_columns limit_rows in
  Forall (fun row => length row = length (columns df)) (rows df).
Proof.
  cbv zeta. destruct fetched as [grid|e]; [|by constructor].
  destruct (get_worksheet_cases grid row_start column_start
              limit_columns limit_rows)
    as [-> | (header_row & _ & _ & _ & Hwidth & ->)]; [by constructor|].
  done.
Qed.

(** X11: The worksheet endpoint never answers 500.  Its [total_rows] is the
    number of records in [data]; there are no records exactly when the
    frame has no rows or no columns, and exactly then the [columns] key is
    left out: a window with a header row and no data rows is answered like
    a sheet that could not be read. *)
Theorem worksheet_endpoint_counts_records (fetched : Exc RawGrid)
    (row_start column_start limit_columns limit_rows : Z) :
  let df := get_worksheet fetched row_start column_start
              limit_columns limit_rows in
  exists response : WorksheetResponse,
    get_worksheet_data fetched row_start column_start limit_columns limit_rows
    = Ok response
    /\ ws_total_rows response = py_len (ws_data response)
    /\ (ws_data response = [] <-> rows df = [] \/ columns df = [])
    /\ (ws_columns response = None <-> ws_data response = [])
    /\ (ws_data response <> [] ->
        ws_columns response = Some (columns df)
        /\ length (ws_data response) = length (rows df)).
Proof.
  cbv zeta. unfold get_worksheet_data. cbv zeta.
  set (df := get_worksheet fetched row_start column_start
               limit_columns limit_rows).
  destruct (df_empty df) eqn:Hempty.
  - eexists. split; [done|]. cbn. apply df_empty_iff in Hempty.
    repeat split; done.
  - eexists. split; [done|]. cbn.
    assert (~ (rows df = [] \/ columns df = [])) as Hnot.
    { intros H. apply df_empty_iff in H. congruence. }
    assert (to_dict_records df <> []) as Hdata.
    { unfold to_dict_records. intros Hnil. apply fmap_nil_inv in Hnil.
      apply Hnot. by left. }
    repeat split; try done.
    unfold to_dict_records. by rewrite length_fmap.
Qed.

(** X12: Without pagination parameters the transactions endpoint answers the
    same records and the same [total_rows] as the worksheet endpoint asked
    for the whole sheet. *)
Theorem endpoints_agree_on_whole_sheet (fetched : Exc RawGrid)
    (page page_size : option Z) :
  page = None \/ page_size = None ->
  exists (response : Response) (ws_response : WorksheetResponse),
    return_transactions fetched page page_size = Ok response
    /\ get_worksheet_data fetched 1 1 0 0 = Ok ws_response
    /\ data response = ws_data ws_response
    /\ total_rows response = ws_total_rows ws_response
    /\ paging response = None.
Proof.
  intros Habsent. unfold return_transactions, get_worksheet_data. cbv zeta.
  destruct (df_empty (get_worksheet fetched 1 1 0 0)).
  - do 2 eexists. repeat split.
  - assert (forall df : DataFrame,
              paginate df page page_size
              = Ok {| message := "All transactions retrieved successfully";
                      data := to_dict_records df;
                      total_rows := df_len df;
                      paging := None |}) as ->.
    { intros df. unfold paginate.
      destruct Habsent as [-> | ->]; [done|]. by destruct page. }
    do 2 eexists. repeat split. cbn.
    unfold df_len, to_dict_records, py_len. by rewrite length_fmap.
Qed.

Lemma endpoints_agree_on_whole_sheet_witness :
  exists (response : Response) (ws_response : WorksheetResponse),
    return_transactions (Ok grid_scenario_A) (Some 2) None = Ok response
    /\ get_worksheet_data (Ok grid_scenario_A) 1 1 0 0 = Ok ws_response
    /\ data response = ws_data ws_response
    /\ total_rows response = ws_total_rows ws_response
    /\ paging response = None.
Proof.
  apply (endpoints_agree_on_whole_sheet (Ok grid_scenario_A) (Some 2) None).
  by right.
Defined.

(** X13: When the column names of the frame are all different, the records of
    [df.to_dict('records')] are the rows keyed by the columns: record [i]
    pairs each column with the cell of row [i] under it. *)
Theorem records_are_keyed_rows (fetched : Exc RawGrid)
    (row_start column_start limit_columns limit_rows : Z) :
  let df := get_worksheet fetched row_start column_start
              limit_columns limit_rows in
  NoDup (columns df) ->
  to_dict_records df = zip (columns df) <$> rows df.
Proof.
  cbv zeta. intros Hnd. unfold to_dict_records.
  apply Forall_fmap_ext_1.
  eapply Forall_impl;
    [apply (get_worksheet_rectangular fetched row_start column_start
              limit_columns limit_rows)|].
  cbn. intros row Hlen.
  unfold to_record. rewrite fold_dict_set_fresh; [done|].
  cbn. by rewrite fst_zip by lia.
Qed.

Lemma records_are_keyed_rows_witness :
  to_dict_records (get_worksheet (Ok grid_scenario_A) 1 1 0 0)
  = [[("id", Some "1"); ("name", Some "Alice")];
     [("id", Some "2"); ("name", None)]]%string.
Proof.
  apply (records_are_keyed_rows (Ok grid_scenario_A) 1 1 0 0).
  apply NoDup_cons. split; [|apply NoDup_singleton].
  intros Hin. apply list_elem_of_singleton in Hin. discriminate.
Defined.

(** ** The Pager: pages as a whole *)

Lemma chunks_join {A : Type} (k m : nat) :
  forall l : list A,
    (length l <= m * k)%nat ->
    mjoin ((fun i : nat => take k (drop (i * k) l)) <$> seq 0 m) = l.
Proof.
  induction m as [|m IH]; intros l Hlen.
  - destruct l; [done | cbn in Hlen; lia].
  - cbn [seq]. rewrite fmap_cons, <- fmap_S_seq, <- list_fmap_compose.
    cbn [mjoin list_join]. cbn [Nat.mul drop].
    rewrite (list_fmap_ext _ (fun i : nat => take k (drop (i * k) (drop k l)))).
    + rewrite IH by (rewrite length_drop; lia). apply take_drop.
    + intros _ i _. cbn. rewrite drop_drop. do 2 f_equal; lia.
Qed.

Lemma join_fmap_fmap {A B C : Type} (f : B -> C) (g : A -> list B)
    (l : list A) :
  mjoin ((fun x => f <$> g x) <$> l) = f <$> mjoin (g <$> l).
Proof.
  induction l as [|x l IH]; [done|].
  rewrite !fmap_cons.
  change (mjoin ((f <$> g x) :: ((fun x => f <$> g x) <$> l)))
    with ((f <$> g x) ++ mjoin ((fun x => f <$> g x) <$> l)).
  change (mjoin (g x :: (g <$> l))) with (g x ++ mjoin (g <$> l)).
  by rewrite IH, fmap_app.
Qed.

(** The items of page [p >= 1]: at most [ps] rows from row (p-1)*ps on. *)
Lemma page_data_items (df : DataFrame) (p ps : Z) :
  1 <= p -> 1 <= ps ->
  page_data df p ps
  = to_record (columns df)
      <$> take (Z.to_nat ps)
            (drop (Z.to_nat (p - 1) * Z.to_nat ps) (rows df)).
Proof.
  intros Hp Hps. unfold page_data.
  rewrite paginate_both_present by lia. cbn [data].
  rewrite py_slice_nonneg by nia.
  do 2 f_equal; [nia|]. f_equal. nia.
Qed.

(** X14: The pages 1, ..., total_pages, one after the other, are the whole
    table: every row is on exactly one page, in order. *)
Theorem pages_partition_the_table (df : DataFrame) (ps : Z) :
  1 <= ps ->
  mjoin ((fun p : Z => page_data df p ps)
           <$> seqZ 1 ((df_len df + ps - 1) / ps))
  = to_dict_records df.
Proof.
  intros Hps. unfold seqZ. rewrite <- list_fmap_compose.
  pose proof (total_pages_ceiling (df_len df) ps ltac:(lia)) as Hceil.
  pose proof (py_len_nonneg (rows df)) as Hn. fold (df_len df) in Hn.
  set (tp := (df_len df + ps - 1) / ps) in *.
  rewrite (list_fmap_ext _
             (fun i : nat =>
                to_record (columns df)
                  <$> take (Z.to_nat ps)
                        (drop (i * Z.to_nat ps) (rows df)))).
  - rewrite (join_fmap_fmap (to_record (columns df))
               (fun i : nat =>
                  take (Z.to_nat ps) (drop (i * Z.to_nat ps) (rows df)))).
    rewrite chunks_join; [done|].
    unfold df_len, py_len in *. nia.
  - intros _ i _. cbn. rewrite page_data_items by lia.
    do 3 f_equal. lia.
Qed.

Lemma pages_partition_the_table_witness :
  mjoin ((fun p : Z => page_data frame_25 p 10) <$> seqZ 1 3)
  = to_dict_records frame_25.
Proof.
  apply (pages_partition_the_table frame_25 10). lia.
Defined.

(** X15: Every page before the last holds exactly [ps] items, and the last page
    holds what is left, at least one item and at most [ps]. *)
Theorem page_item_counts (df : DataFrame) (p ps : Z) :
  1 <= ps -> 1 <= p ->
  let tp := (df_len df + ps - 1) / ps in
  (p < tp -> py_len (page_data df p ps) = ps)
  /\ (p = tp ->
      py_len (page_data df p ps) = df_len df - (tp - 1) * ps
      /\ 1 <= py_len (page_data df p ps) <= ps).
Proof.
  intros Hps Hp tp.
  pose proof (total_pages_ceiling (df_len df) ps ltac:(lia)) as Hceil.
  fold tp in Hceil.
  rewrite page_data_items by done.
  unfold py_len, df_len, py_len in *.
  rewrite length_fmap, length_take, length_drop.
  split; intros Hcase; nia.
Qed.

Lemma page_item_counts_witness :
  py_len (page_data frame_25 2 10) = 10
  /\ py_len (page_data frame_25 3 10) = 25 - (3 - 1) * 10.
Proof.
  split.
  - apply (proj1 (page_item_counts frame_25 2 10 ltac:(lia) ltac:(lia))).
    by vm_compute.
  - apply (proj2 (page_item_counts frame_25 3 10 ltac:(lia) ltac:(lia))).
    by vm_compute.
Defined.

(** X16: [has_next] says whether the next page has anything on it. *)
Theorem has_next_iff_next_page_has_items (df : DataFrame) (p ps : Z) :
  1 <= ps -> 1 <= p ->
  page_has_next df p ps = true <-> page_data df (p + 1) ps <> [].
Proof.
  intros Hps Hp. unfold page_has_next.
  rewrite paginate_both_present by lia. cbn [paging has_next].
  rewrite page_data_items by lia.
  pose proof (total_pages_ceiling (df_len df) ps ltac:(lia)) as Hceil.
  set (tp := (df_len df + ps - 1) / ps) in *.
  rewrite bool_decide_eq_true.
  set (items := take _ _).
  assert (items = [] <-> length items = 0%nat) as Hnil
    by (destruct items; naive_solver).
  assert (length items = 0%nat <-> tp <= p) as Hlen.
  { unfold items. rewrite length_take, length_drop.
    unfold df_len, py_len in *. split; intros; nia. }
  split.
  - intros Hlt Hempty. apply fmap_nil_inv in Hempty.
    apply Hnil, Hlen in Hempty. lia.
  - intros Hne. destruct (Z.lt_ge_cases p tp) as [|Hge]; [done|].
    exfalso. apply Hne.
    assert (items = []) as -> by (apply Hnil, Hlen; lia). done.
Qed.

Lemma has_next_iff_next_page_has_items_witness :
  page_has_next frame_25 2 10 = true /\ page_data frame_25 3 10 <> [].
Proof.
  split; [reflexivity|].
  apply (has_next_iff_next_page_has_items frame_25 2 10); [lia | lia |].
  reflexivity.
Defined.

(** X17: A page size that holds the whole table gives it on page 1, the only
    page. *)
Theorem one_page_holds_all (df : DataFrame) (ps : Z) :
  1 <= df_len df <= ps ->
  paginate df (Some 1) (Some ps)
  = Ok {| message := "Transactions retrieved successfully";
          data := to_dict_records df;
          total_rows := df_len df;
          paging := Some {| page := 1;
                            page_size := ps;
                            total_pages := 1;
                            has_next := false;
                            has_previous := false |} |}.
Proof.
  intros Hn. rewrite paginate_both_present by lia.
  pose proof (total_pages_ceiling (df_len df) ps ltac:(lia)) as Hceil.
  assert ((df_len df + ps - 1) / ps = 1) as -> by nia.
  replace ((1 - 1) * ps) with 0 by lia. replace (0 + ps) with ps by lia.
  rewrite py_slice_nonneg by lia.
  change (Z.to_nat 0) with O. rewrite drop_0, Nat.sub_0_r.
  rewrite take_ge by (unfold df_len, py_len in Hn; lia).
  by rewrite !bool_decide_eq_false_2 by lia.
Qed.

Lemma one_page_holds_all_witness :
  paginate frame_25 (Some 1) (Some 1000)
  = Ok {| message := "Transactions retrieved successfully";
          data := to_dict_records frame_25;
          total_rows := 25;
          paging := Some {| page := 1;
                            page_size := 1000;
                            total_pages := 1;
                            has_next := false;
                            has_previous := false |} |}.
Proof.
  apply (one_page_holds_all frame_25 1000). by vm_compute.
Defined.

(** X18: The transactions endpoint answers 500 in one case only: both
    parameters present, [page_size = 0] (which the query validation
    [ge=1] rules out) and a sheet with data; the division for
    [total_pages] then fails.  No fetch failure and no shape of the grid
    makes it fail. *)
Theorem transactions_endpoint_fails_only_on_page_size_0
    (fetched : Exc RawGrid) (page page_size : option Z) (e : exn) :
  return_transactions fetched page page_size = Raise e
  <-> e = HTTPException 500
      /\ is_Some page
      /\ page_size = Some 0
      /\ df_empty (get_worksheet fetched 1 1 0 0) = false.
Proof.
  unfold return_transactions. cbv zeta.
  destruct (df_empty (get_worksheet fetched 1 1 0 0)).
  { split; [done|]. by intros (_ & _ & _ & ?). }
  destruct page as [p|], page_size as [ps|].
  - destruct (decide (ps = 0)) as [->|Hps].
    + unfold paginate, py_floordiv. cbn. split.
      * intros [= <-]. repeat split; by eauto.
      * by intros (-> & _).
    + rewrite paginate_both_present by done. split; [done|].
      intros (_ & _ & [= ?] & _). done.
  - split; [done|]. by intros (_ & _ & ? & _).
  - split; [done|]. by intros (_ & [? ?] & _).
  - split; [done|]. by intros (_ & [? ?] & _).
Qed.

Lemma transactions_endpoint_fails_only_on_page_size_0_witness :
  return_transactions (Ok grid_scenario_A) (Some 1) (Some 0)
  = Raise (HTTPException 500).
Proof.
  apply (proj2 (transactions_endpoint_fails_only_on_page_size_0
                  (Ok grid_scenario_A) (Some 1) (Some 0) (HTTPException 500))).
  repeat split; by eauto.
Defined.

(** The key "s3cret" is configured: the same token is let through. *)
Lemma verify_api_key_accepts_only_the_key_witness :
  _verify_api_key (Some "s3cret"%string) "s3cret" = Ok "s3cret"%string.
Proof.
  apply (proj2 (proj1 (verify_api_key_accepts_only_the_key
                         (Some "s3cret"%string) "s3cret") "s3cret"%string)).
  repeat split. discriminate.
Defined.

(** A value of the variable that does not parse, beside a token file that
    does: no credentials. *)
Lemma credentials_come_from_one_source_witness :
  get_credentials_dict
    (fun text : string => if String.eqb text "{}" then Some tt else None)
    (Some "{"%string) (Some (Some "{}"%string))
  <> inr tt.
Proof.
  intros Hcreds.
  apply (proj1 (credentials_come_from_one_source
                  (fun text : string =>
                     if String.eqb text "{}" then Some tt else None)
                  (Some "{"%string) (Some (Some "{}"%string)) tt))
    in Hcreds.
  destruct Hcreds as [(text & [= <-] & _ & Hparse) | ([H | H] & _)];
    discriminate.
Defined.

(** A window with a header row and no data rows. *)
Lemma worksheet_endpoint_counts_records_witness :
  exists response : WorksheetResponse,
    get_worksheet_data (Ok grid_header_only) 0 1 0 0 = Ok response
    /\ ws_total_rows response = py_len (ws_data response)
    /\ (ws_data response = []
        <-> rows (get_worksheet (Ok grid_header_only) 0 1 0 0) = []
            \/ columns (get_worksheet (Ok grid_header_only) 0 1 0 0) = [])
    /\ (ws_columns response = None <-> ws_data response = [])
    /\ (ws_data response <> [] ->
        ws_columns response
        = Some (columns (get_worksheet (Ok grid_header_only) 0 1 0 0))
        /\ length (ws_data response)
           = length (rows (get_worksheet (Ok grid_header_only) 0 1 0 0))).
Proof.
  exact (worksheet_endpoint_counts_records (Ok grid_header_only) 0 1 0 0).
Defined.
